(** * The tool-calling client of the Workday MCP service

    A shallow embedding of [src/get_worker_client.py] (class [MCPClient]:
    [connect_to_server], [process_query], [cleanup]) and the properties of
    its orchestration loop.

    Python values that the client only passes around are data here; the
    libraries it calls (the MCP session, the chat-completion endpoint,
    [json.loads], [str]) are an interface, [Collaborators], over an abstract
    world [W].  Exceptions are values of [Exn]; only subclasses of Python's
    [Exception] are modelled, which is what every [except Exception] of the
    source catches.  Diagnostic [print]s of successful steps are left out;
    the ones in exception handlers are events of the trace.  A completion
    is the list of the messages of its choices, and the client fields
    [stdio] and [write], which no method reads, are not kept. *)

From Stdlib Require Import String Ascii List Bool Arith Lia QArith.
From Stdlib Require DecimalString.
Import ListNotations.
Local Open Scope nat_scope.
Local Open Scope string_scope.
Local Open Scope list_scope.

Set Implicit Arguments.

(** ** Python data *)

(** The exception classes the client meets. *)
Inductive ExnClass : Type :=
| ValueError
| AttributeError
| UnboundLocalError
| TypeError
| IndexError
| JSONDecodeError
| ProcessLookupError
| OtherError (name : string).

Record Exn : Type := mkExn { exn_class : ExnClass; exn_str : string }.

(** Values produced by [json.loads]; a dict keeps its items in order. *)
#[warnings="-register-all"]
Inductive PyVal : Type :=
| PNone
| PBool (b : bool)
| PInt (z : Z)
| PStr (s : string)
| PList (items : list PyVal)
| PDict (items : list (string * PyVal)).

(** A value that a [final_text] slot or a message content may hold: the code
    is dynamically typed and puts there whatever it computed. *)
Inductive ContentItem : Type :=
| TextContent (text : string)
| OtherContent (descr : string).

Inductive Dyn : Type :=
| DStr (s : string)
| DNone
| DItems (items : list ContentItem).

(** What [session.call_tool] may hand back, as far as the code tells the
    shapes apart: a list, a str, or an object with a [content] attribute
    (the [CallToolResult] of the MCP library), or any other object. *)
Inductive ToolResponse : Type :=
| RespList (items : list ContentItem)
| RespStr (s : string)
| RespObj (content : list ContentItem) (isError : bool)
| RespOther (descr : string).

Record Function_ : Type := mkFunction { name : string; arguments : string }.
Record ToolCall : Type := mkToolCall { id : string; function : Function_ }.

(** The assistant message of a completion choice. *)
Record ChatMessage : Type := mkChatMessage {
  content : option string;
  tool_calls : option (list ToolCall)
}.

Record ChatCompletion : Type := mkChatCompletion { choices : list ChatMessage }.

Inductive Message : Type :=
| MsgSystem (text : string)
| MsgUser (text : string)
| MsgAssistant (m : ChatMessage)
| MsgTool (tool_call_id : string) (body : Dyn).

Record Tool : Type := mkTool {
  tool_name : string;
  tool_description : string;
  inputSchema : PyVal
}.

(** The keyword arguments of [chat.completions.create]; an absent keyword is
    [None]. *)
Record ChatRequest : Type := mkChatRequest {
  req_model : string;
  req_max_tokens : nat;
  req_temperature : option Q;
  req_messages : list Message;
  req_tools : option (list Tool)
}.

Inductive PromptContent : Type :=
| PromptText (text : string)
| PromptOther (descr : string).

Record PromptMessage : Type := mkPromptMessage {
  role : string;
  pm_content : PromptContent
}.

(** The result of [session.get_prompt]: which of the attributes [messages]
    and [message] the object has. *)
Record PromptResult : Type := mkPromptResult {
  pr_messages : option (list PromptMessage);
  pr_has_message : bool
}.

(** ** Strings *)

Definition nl : string := String (ascii_of_nat 10) EmptyString.

(** [sep.join(l)] on a list of str. *)
Fixpoint join (sep : string) (l : list string) : string :=
  match l with
  | [] => EmptyString
  | [x] => x
  | x :: rest => x ++ sep ++ join sep rest
  end.

(** [s.endswith(suffix)]. *)
Definition endswith (s suffix : string) : bool :=
  let n := String.length s in
  let m := String.length suffix in
  if Nat.leb m n then String.eqb (substring (n - m) m s) suffix else false.

Definition is_str (d : Dyn) : bool :=
  match d with DStr _ => true | _ => false end.

(** [join] raises [TypeError] on the first item that is not a str. *)
Fixpoint strs_of (l : list Dyn) : Exn + list string :=
  match l with
  | [] => inr []
  | DStr s :: rest =>
      match strs_of rest with
      | inr ss => inr (s :: ss)
      | inl e => inl e
      end
  | _ :: _ => inl (mkExn TypeError "sequence item: expected str instance")
  end.

Definition join_lines (l : list Dyn) : Exn + string :=
  match strs_of l with
  | inr ss => inr (join nl ss)
  | inl e => inl e
  end.

(** ** The collaborators *)

Inductive Resource (Sess Transport : Type) : Type :=
| ResTransport (t : Transport)
| ResSession (s : Sess).

Class Collaborators (W Sess Transport : Type) : Type := {
  (** [json.loads] *)
  json_loads : string -> Exn + PyVal;
  (** [str] of a parsed value, as an f-string or [str(v)] renders it *)
  py_str : PyVal -> string;
  (** [str] of what [call_tool] returned *)
  str_response : ToolResponse -> string;
  (** the rendering of [{'role': r, 'content': c}] inside an f-string *)
  str_template_message : string -> PromptContent -> string;
  (** [stdio_client(server_params)] entered on the exit stack *)
  stdio_client : string -> list string -> W -> (Exn + Transport) * W;
  (** [ClientSession(stdio, write)] entered on the exit stack *)
  client_session : Transport -> W -> (Exn + Sess) * W;
  initialize : Sess -> W -> (Exn + unit) * W;
  list_tools : Sess -> W -> (Exn + list Tool) * W;
  call_tool : Sess -> string -> PyVal -> W -> (Exn + ToolResponse) * W;
  get_prompt : Sess -> PyVal -> list (string * string) -> W
               -> (Exn + PromptResult) * W;
  (** [llm.chat.completions.create] *)
  chat_create : ChatRequest -> W -> (Exn + ChatCompletion) * W;
  (** [exit_stack.aclose()] *)
  aclose : list (Resource Sess Transport) -> W -> option Exn * W
}.

(** ** Events and the state of one call of [process_query] *)

Inductive Event : Type :=
| EvStdioClient (command : string) (args : list string)
| EvClientSession
| EvInitialize
| EvListTools
| EvChatCreate (req : ChatRequest) (res : Exn + ChatCompletion)
| EvCallTool (tool : string) (args : PyVal) (res : Exn + ToolResponse)
| EvGetPrompt (template : PyVal) (args : list (string * string))
              (res : Exn + PromptResult)
| EvPrint (line : string).

(** What the properties observe. *)

(** The [tool_call_id]s of the messages of role tool, in order. *)
Fixpoint tool_call_ids (ms : list Message) : list string :=
  match ms with
  | [] => []
  | MsgTool i _ :: rest => i :: tool_call_ids rest
  | _ :: rest => tool_call_ids rest
  end.

(** The completion calls made without the [tools] keyword, in order. *)
Fixpoint final_requests (tr : list Event) : list ChatRequest :=
  match tr with
  | [] => []
  | EvChatCreate req _ :: rest =>
      match req_tools req with
      | None => req :: final_requests rest
      | Some _ => final_requests rest
      end
  | _ :: rest => final_requests rest
  end.

(** Every completion call, in order. *)
Fixpoint chat_requests (tr : list Event) : list ChatRequest :=
  match tr with
  | [] => []
  | EvChatCreate req _ :: rest => req :: chat_requests rest
  | _ :: rest => chat_requests rest
  end.

(** The tools that were called, with the arguments they were given. *)
Fixpoint tools_called (tr : list Event) : list (string * PyVal) :=
  match tr with
  | [] => []
  | EvCallTool t a _ :: rest => (t, a) :: tools_called rest
  | _ :: rest => tools_called rest
  end.

(** The calls of a tool that came back with a result object. *)
Fixpoint executed (tr : list Event) : list (string * PyVal * ToolResponse) :=
  match tr with
  | [] => []
  | EvCallTool t a (inr (RespObj c e)) :: rest =>
      (t, a, RespObj c e) :: executed rest
  | _ :: rest => executed rest
  end.

(** The kind of an event, to read the order of a trace. *)
Inductive Kind : Type :=
| KSetup
| KListTools
| KInitialCompletion
| KCompletionWithoutTools
| KCallTool (tool : string)
| KGetPrompt
| KPrint.

Definition kind (ev : Event) : Kind :=
  match ev with
  | EvStdioClient _ _ | EvClientSession | EvInitialize => KSetup
  | EvListTools => KListTools
  | EvChatCreate req _ =>
      match req_tools req with
      | Some _ => KInitialCompletion
      | None => KCompletionWithoutTools
      end
  | EvCallTool t _ _ => KCallTool t
  | EvGetPrompt _ _ _ => KGetPrompt
  | EvPrint _ => KPrint
  end.

(** How a piece of the function ends: it goes on with a value, it executes
    [return], or it raises. *)
Inductive Outcome (A : Type) : Type :=
| Normal (a : A)
| Returned (s : string)
| Raised (e : Exn).
Arguments Returned {A} s.
Arguments Raised {A} e.

Declare Scope py_scope.
Delimit Scope py_scope with py.

Section Client.

Context {W Sess Transport : Type} {C : Collaborators W Sess Transport}.

Record MCPClient : Type := mkClient {
  session : option Sess;
  exit_stack : list (Resource Sess Transport);
  model : string
}.

(** The locals of [process_query] that the loop updates, the world and the
    trace of what was called.  [tool_args] is [None] until first bound. *)
Record State : Type := mkState {
  world : W;
  messages : list Message;
  final_text : list Dyn;
  tool_args : option PyVal;
  trace : list Event
}.

Definition M (A : Type) : Type := State -> Outcome A * State.

Definition ret {A} (a : A) : M A := fun st => (Normal a, st).

Definition bind {A B} (m : M A) (k : A -> M B) : M B :=
  fun st =>
    match m st with
    | (Normal a, st') => k a st'
    | (Returned s, st') => (Returned s, st')
    | (Raised e, st') => (Raised e, st')
    end.

Definition raise {A} (e : Exn) : M A := fun st => (Raised e, st).

(** The [return] statement. *)
Definition return_ {A} (s : string) : M A := fun st => (Returned s, st).

(** [try: m  except Exception as e: h e]. *)
Definition try_except {A} (m : M A) (h : Exn -> M A) : M A :=
  fun st =>
    match m st with
    | (Raised e, st') => h e st'
    | r => r
    end.

Definition lift_exn {A} (r : Exn + A) : M A :=
  match r with
  | inr a => ret a
  | inl e => raise e
  end.

Definition log (ev : Event) : M unit :=
  fun st => (Normal tt,
             mkState (world st) (messages st) (final_text st) (tool_args st)
                     (trace st ++ [ev])).

Definition print (line : string) : M unit := log (EvPrint line).

(** A call to a collaborator: run it on the world, log it, then raise or
    give its value. *)
Definition call {A} (f : W -> (Exn + A) * W) (ev : Exn + A -> Event) : M A :=
  fun st =>
    let (r, w') := f (world st) in
    lift_exn r (mkState w' (messages st) (final_text st) (tool_args st)
                        (trace st ++ [ev r])).

Definition messages_append (m : Message) : M unit :=
  fun st => (Normal tt,
             mkState (world st) (messages st ++ [m]) (final_text st)
                     (tool_args st) (trace st)).

Definition final_text_append (d : Dyn) : M unit :=
  fun st => (Normal tt,
             mkState (world st) (messages st) (final_text st ++ [d])
                     (tool_args st) (trace st)).

Definition set_tool_args (v : PyVal) : M unit :=
  fun st => (Normal tt,
             mkState (world st) (messages st) (final_text st) (Some v)
                     (trace st)).

Definition get_messages : M (list Message) := fun st => (Normal (messages st), st).
Definition get_final_text : M (list Dyn) := fun st => (Normal (final_text st), st).

(** Reading the local [tool_args]: unbound raises. *)
Definition get_tool_args : M PyVal :=
  fun st =>
    match tool_args st with
    | Some v => (Normal v, st)
    | None =>
        (Raised (mkExn UnboundLocalError
           "cannot access local variable 'tool_args' where it is not associated with a value"),
         st)
    end.

Fixpoint for_each {A} (body : A -> M unit) (l : list A) : M unit :=
  match l with
  | [] => ret tt
  | x :: rest => bind (body x) (fun _ => for_each body rest)
  end.

Notation "x <- m ;; k" := (bind m (fun x => k))
  (at level 61, m at next level, right associativity) : py_scope.
Notation "m ;;; k" := (bind m (fun _ => k))
  (at level 61, right associativity) : py_scope.
Local Open Scope py_scope.

Definition set_messages (l : list Message) : M unit :=
  fun st => (Normal tt,
             mkState (world st) l (final_text st) (tool_args st) (trace st)).

Definition set_final_text (l : list Dyn) : M unit :=
  fun st => (Normal tt,
             mkState (world st) (messages st) l (tool_args st) (trace st)).

(** [self.session.<method>]: an attribute of [None] does not exist. *)
Definition the_session (self : MCPClient) (method : string) : M Sess :=
  match session self with
  | Some s => ret s
  | None =>
      raise (mkExn AttributeError
               ("'NoneType' object has no attribute '" ++ method ++ "'"))
  end.

(** ** [process_query]: normalising a tool response (lines 112-120) *)

(** [tool_response.content] *)
Definition response_content (tool_response : ToolResponse) : Exn + Dyn :=
  match tool_response with
  | RespObj c _ => inr (DItems c)
  | RespList _ =>
      inl (mkExn AttributeError "'list' object has no attribute 'content'")
  | RespStr _ =>
      inl (mkExn AttributeError "'str' object has no attribute 'content'")
  | RespOther _ =>
      inl (mkExn AttributeError "object has no attribute 'content'")
  end.

Definition isinstance_list (tool_response : ToolResponse) : bool :=
  match tool_response with RespList _ => true | _ => false end.

Definition isinstance_str (tool_response : ToolResponse) : bool :=
  match tool_response with RespStr _ => true | _ => false end.

(** What [for item in tool_response] runs over. *)
Definition iter_response (tool_response : ToolResponse) : list ContentItem :=
  match tool_response with RespList l => l | _ => [] end.

(** The loop [text_content += item.text] over the items that have [text]. *)
Fixpoint concat_text (items : list ContentItem) (text_content : string)
  : string :=
  match items with
  | [] => text_content
  | TextContent t :: rest => concat_text rest (text_content ++ t)
  | OtherContent _ :: rest => concat_text rest text_content
  end.

Definition tool_result_content (tool_response : ToolResponse) : Exn + Dyn :=
  match response_content tool_response with
  | inl e => inl e
  | inr c =>
      if isinstance_list tool_response then
        inr (DStr (concat_text (iter_response tool_response) EmptyString))
      else if negb (isinstance_str tool_response) then
        inr (DStr (str_response tool_response))
      else inr c
  end.

(** ** [process_query]: one tool call (lines 100-165) *)

Definition announcement (tool_name : string) (args : PyVal) : string :=
  "Calling tool " ++ tool_name ++ " with args " ++ py_str args.

(** Lines 102-106. *)
Definition parse_tool_args (tool_call : ToolCall) : M unit :=
  try_except
    (v <- lift_exn (json_loads (arguments (function tool_call))) ;;
     set_tool_args v)
    (fun e => print ("Error parsing tool args: " ++ exn_str e)).

(** Lines 108-129. *)
Definition execute_tool_call (self : MCPClient) (tool_call : ToolCall)
  : M unit :=
  let tool_name := name (function tool_call) in
  args <- get_tool_args ;;
  final_text_append (DStr (announcement tool_name args)) ;;;
  s <- the_session self "call_tool" ;;
  tool_response <- call (call_tool s tool_name args)
                        (EvCallTool tool_name args) ;;
  c <- lift_exn (tool_result_content tool_response) ;;
  final_text_append c ;;;
  messages_append (MsgTool (id tool_call) c).

Fixpoint dict_get (k : string) (items : list (string * PyVal))
  : option PyVal :=
  match items with
  | [] => None
  | (k', v) :: rest => if String.eqb k k' then Some v else dict_get k rest
  end.

(** [{k: str(v) for k, v in template_args.items()}] *)
Definition string_args_of (template_args : PyVal)
  : Exn + list (string * string) :=
  match template_args with
  | PDict d => inr (map (fun kv => (fst kv, py_str (snd kv))) d)
  | _ => inl (mkExn AttributeError "object has no attribute 'items'")
  end.

Definition surface_template_message (message : PromptMessage) : M unit :=
  if String.eqb (role message) "assistant" then
    final_text_append
      (DStr ("LLM response: "
             ++ str_template_message (role message) (pm_content message)))
  else ret tt.

(** Lines 132-151. *)
Definition expand_template (self : MCPClient) : M unit :=
  try_except
    (args <- get_tool_args ;;
     match args with
     | PDict d =>
         match dict_get "prompt_template" d, dict_get "template_args" d with
         | Some prompt_template, Some template_args =>
             string_args <- lift_exn (string_args_of template_args) ;;
             s <- the_session self "get_prompt" ;;
             template_response <-
               call (get_prompt s prompt_template string_args)
                    (EvGetPrompt prompt_template string_args) ;;
             match pr_messages template_response,
                   pr_has_message template_response with
             | Some msgs, true => for_each surface_template_message msgs
             | _, _ => ret tt
             end
         | _, _ => ret tt
         end
     | _ => ret tt
     end)
    (fun e => print ("Error processing template information: " ++ exn_str e)).

(** [response.choices[0]] on a completion. *)
Definition first_choice (c : ChatCompletion) : Exn + ChatMessage :=
  match choices c with
  | m :: _ => inr m
  | [] => inl (mkExn IndexError "list index out of range")
  end.

(** [prefix + content] with [content] possibly [None]. *)
Definition str_add (prefix : string) (c : option string) : Exn + string :=
  match c with
  | Some t => inr (prefix ++ t)%string
  | None =>
      inl (mkExn TypeError "can only concatenate str (not 'NoneType') to str")
  end.

Definition final_request (self : MCPClient) (ms : list Message)
  : ChatRequest :=
  mkChatRequest (model self) 4096 (Some (1 # 2)%Q) ms None.

(** [return "\n".join(final_text)] *)
Definition return_joined {A} : M A :=
  ft <- get_final_text ;;
  r <- lift_exn (join_lines ft) ;;
  return_ r.

(** Lines 154-165. *)
Definition final_completion (self : MCPClient) : M unit :=
  try_except
    (ms <- get_messages ;;
     final_response <- call (chat_create (final_request self ms))
                            (EvChatCreate (final_request self ms)) ;;
     message <- lift_exn (first_choice final_response) ;;
     text <- lift_exn (str_add "LLM final response: " (content message)) ;;
     final_text_append (DStr text))
    (fun e =>
       print ("Error in final LLM call: " ++ exn_str e) ;;;
       final_text_append (DStr ("Error in final LLM call: " ++ exn_str e)) ;;;
       return_joined).

(** The body of [for tool_call in ...tool_calls]. *)
Definition resolve_tool_call (self : MCPClient) (tool_call : ToolCall)
  : M unit :=
  parse_tool_args tool_call ;;;
  execute_tool_call self tool_call ;;;
  expand_template self ;;;
  final_completion self.

(** ** [process_query] (lines 57-170) *)

Definition SYSTEM_PROMPT : string :=
  "You are a professional AI Assistant. You can use the tools in the MCP Server to complete Workday HCM related tasks requested by the user.".

(** The local [response] holds first the result of [list_tools], then the
    completion. *)
Inductive ResponseVar : Type :=
| ListToolsResult (tools : list Tool)
| Completion (c : ChatCompletion).

(** [response.choices[0]] *)
Definition choices_0 (response : ResponseVar) : Exn + ChatMessage :=
  match response with
  | Completion c => first_choice c
  | ListToolsResult _ =>
      inl (mkExn AttributeError
             "'ListToolsResult' object has no attribute 'choices'")
  end.

(** The entry built for each tool by the comprehension of lines 76-83. *)
Definition available_tool (tool : Tool) : Tool :=
  mkTool (tool_name tool) (tool_description tool) (inputSchema tool).

Definition initial_request (self : MCPClient) (ms : list Message)
           (available_tools : list Tool) : ChatRequest :=
  mkChatRequest (model self) 4096 None ms (Some available_tools).

Definition dyn_of_content (c : option string) : Dyn :=
  match c with
  | Some t => DStr t
  | None => DNone
  end.

Definition process_query_body (self : MCPClient) (query : string)
  : M string :=
  set_messages [MsgSystem SYSTEM_PROMPT; MsgUser query] ;;;
  s <- the_session self "list_tools" ;;
  tools <- call (list_tools s) (fun _ => EvListTools) ;;
  let available_tools := map available_tool tools in
  ms <- get_messages ;;
  response <-
    try_except
      (c <- call (chat_create (initial_request self ms available_tools))
                 (EvChatCreate (initial_request self ms available_tools)) ;;
       ret (Completion c))
      (fun e =>
         print ("Error in LLM call: " ++ exn_str e) ;;;
         ret (ListToolsResult tools)) ;;
  message <- lift_exn (choices_0 response) ;;
  set_final_text [] ;;;
  messages_append (MsgAssistant message) ;;;
  match tool_calls message with
  | Some (tc :: tcs) => for_each (resolve_tool_call self) (tc :: tcs)
  | _ => final_text_append (dyn_of_content (content message))
  end ;;;
  return_joined.

Definition enter (w : W) : State := mkState w [] [] None [].

(** What the caller of [process_query] gets: the str returned, or the
    exception raised; and the state the call ended in. *)
Definition process_query (self : MCPClient) (query : string) (w : W)
  : (Exn + string) * State :=
  match process_query_body self query (enter w) with
  | (Normal s, st) => (inr s, st)
  | (Returned s, st) => (inr s, st)
  | (Raised e, st) => (inl e, st)
  end.

(** ** [connect_to_server] (lines 28-55) and [cleanup] (lines 195-206) *)

(** The result of a method that updates [self]. *)
Record MethodResult : Type := mkResult {
  raised : option Exn;
  self_after : MCPClient;
  world_after : W;
  events : list Event
}.

Definition connect_to_server (self : MCPClient) (server_script_path : string)
           (w : W) : MethodResult :=
  let is_python := endswith server_script_path ".py" in
  let is_js := endswith server_script_path ".js" in
  if negb (is_python || is_js) then
    mkResult
      (Some (mkExn ValueError "Server script must be a .py or .js file"))
      self w []
  else
    let command := if is_python then "python" else "node" in
    let ev1 := [EvStdioClient command [server_script_path]] in
    match stdio_client command [server_script_path] w with
    | (inl e, w1) => mkResult (Some e) self w1 ev1
    | (inr t, w1) =>
        let self1 := mkClient (session self)
                              (ResTransport Sess t :: exit_stack self)
                              (model self) in
        let ev2 := ev1 ++ [EvClientSession] in
        match client_session t w1 with
        | (inl e, w2) => mkResult (Some e) self1 w2 ev2
        | (inr s, w2) =>
            let self2 := mkClient (Some s)
                                  (ResSession Transport s :: exit_stack self1)
                                  (model self) in
            let ev3 := ev2 ++ [EvInitialize] in
            match initialize s w2 with
            | (inl e, w3) => mkResult (Some e) self2 w3 ev3
            | (inr _, w3) =>
                let ev4 := ev3 ++ [EvListTools] in
                match list_tools s w3 with
                | (inl e, w4) => mkResult (Some e) self2 w4 ev4
                | (inr _, w4) => mkResult None self2 w4 ev4
                end
            end
        end
    end.

Definition is_ProcessLookupError (e : Exn) : bool :=
  match exn_class e with
  | ProcessLookupError => true
  | _ => false
  end.

Definition cleanup (self : MCPClient) (w : W) : MethodResult :=
  match aclose (exit_stack self) w with
  | (None, w') => mkResult None (mkClient (session self) [] (model self)) w' []
  | (Some e, w') =>
      let self' := mkClient (session self) [] (model self) in
      if is_ProcessLookupError e then mkResult None self' w' []
      else mkResult None self' w'
             [EvPrint ("Error during cleanup: " ++ exn_str e)]
  end.

End Client.

(** ** A scripted world

    An instance of the collaborators whose answers are read off a script,
    one per call, to run the client on concrete scenarios. *)

Module Scripted.

Record Script : Type := mkScript {
  tools_listed : list Tool;
  chat_results : list (Exn + ChatCompletion);
  tool_results : list (Exn + ToolResponse);
  prompt_results : list (Exn + PromptResult);
  close_result : option Exn
}.

Definition script_over : Exn := mkExn (OtherError "RuntimeError") "no answer left".

(** [json.loads] on the two texts the scenarios send: the empty object and
    an unfinished one. *)
Definition loads (text : string) : Exn + PyVal :=
  if String.eqb text "{}" then inr (PDict [])
  else inl (mkExn JSONDecodeError
              "Expecting property name enclosed in double quotes").

Definition str_of (v : PyVal) : string :=
  match v with
  | PNone => "None"
  | PBool true => "True"
  | PBool false => "False"
  | PStr s => s
  | PDict [] => "{}"
  | PList [] => "[]"
  | _ => "..."
  end.

Definition str_of_item (c : ContentItem) : string :=
  match c with
  | TextContent t => "TextContent(type='text', text='" ++ t ++ "', annotations=None)"
  | OtherContent d => d
  end.

(** How pydantic prints a [CallToolResult]: its fields, not its text. *)
Definition str_of_response (r : ToolResponse) : string :=
  match r with
  | RespObj c e =>
      "meta=None content=[" ++ join ", " (map str_of_item c) ++ "] isError="
      ++ (if e then "True" else "False")
  | RespStr s => s
  | RespList c => "[" ++ join ", " (map str_of_item c) ++ "]"
  | RespOther d => d
  end.

Definition str_of_template_message (r : string) (c : PromptContent) : string :=
  "{'role': '" ++ r ++ "', 'content': '"
  ++ match c with PromptText t => t | PromptOther d => d end ++ "'}".

Definition next_chat (_ : ChatRequest) (w : Script)
  : (Exn + ChatCompletion) * Script :=
  match chat_results w with
  | r :: rest =>
      (r, mkScript (tools_listed w) rest (tool_results w) (prompt_results w)
                   (close_result w))
  | [] => (inl script_over, w)
  end.

Definition next_tool (_ : unit) (_ : string) (_ : PyVal) (w : Script)
  : (Exn + ToolResponse) * Script :=
  match tool_results w with
  | r :: rest =>
      (r, mkScript (tools_listed w) (chat_results w) rest (prompt_results w)
                   (close_result w))
  | [] => (inl script_over, w)
  end.

Definition next_prompt (_ : unit) (_ : PyVal) (_ : list (string * string))
           (w : Script) : (Exn + PromptResult) * Script :=
  match prompt_results w with
  | r :: rest =>
      (r, mkScript (tools_listed w) (chat_results w) (tool_results w) rest
                   (close_result w))
  | [] => (inl script_over, w)
  end.

#[export] Instance scripted : Collaborators Script unit unit := {
  json_loads := loads;
  py_str := str_of;
  str_response := str_of_response;
  str_template_message := str_of_template_message;
  stdio_client := fun _ _ w => (inr tt, w);
  client_session := fun _ w => (inr tt, w);
  initialize := fun _ w => (inr tt, w);
  list_tools := fun _ w => (inr (tools_listed w), w);
  call_tool := next_tool;
  get_prompt := next_prompt;
  chat_create := next_chat;
  aclose := fun _ w => (close_result w, w)
}.

Definition client : MCPClient :=
  mkClient (Some tt) [ResSession unit tt; ResTransport unit tt] "gpt-3.5-turbo".

Definition worker_tool : Tool :=
  mkTool "get_worker_details_tool" "Tool to retrieve detailed information about a specific worker" (PDict []).

Definition workers_tool : Tool :=
  mkTool "get_workers_tool" "Tool to retrieve worker data with optional parameters" (PDict []).

Definition tc (i tool args : string) : ToolCall :=
  mkToolCall i (mkFunction tool args).

Definition asks (calls : list ToolCall) : Exn + ChatCompletion :=
  inr (mkChatCompletion [mkChatMessage None (Some calls)]).

Definition says (text : string) : Exn + ChatCompletion :=
  inr (mkChatCompletion [mkChatMessage (Some text) None]).

Definition hello : ToolResponse := RespObj [TextContent "hello"] false.

Definition unreachable : Exn := mkExn (OtherError "APIConnectionError") "Connection error.".

Definition both : list ToolCall :=
  [tc "call_1" "get_workers_tool" "{}";
   tc "call_2" "get_worker_details_tool" "{}"].

(** Two tool calls, every call to a collaborator succeeds. *)
Definition two_calls : Script :=
  mkScript [workers_tool; worker_tool]
           [asks both; says "one"; says "two"]
           [inr hello; inr hello] [] None.

(** The arguments of the first of two tool calls are malformed. *)
Definition first_malformed : Script :=
  mkScript [workers_tool; worker_tool]
           [asks [tc "call_1" "get_workers_tool" "{";
                  tc "call_2" "get_worker_details_tool" "{}"];
            says "one"; says "two"]
           [inr hello; inr hello] [] None.

(** The arguments of the second of two tool calls are malformed. *)
Definition second_malformed : Script :=
  mkScript [workers_tool; worker_tool]
           [asks [tc "call_1" "get_workers_tool" "{}";
                  tc "call_2" "get_worker_details_tool" "{"];
            says "one"; says "two"]
           [inr hello; inr hello] [] None.

(** [call_tool] raises. *)
Definition tool_raises : Script :=
  mkScript [workers_tool; worker_tool]
           [asks [tc "call_1" "get_workers_tool" "{}"]; says "one"]
           [inl unreachable] [] None.

(** The tool reports its failure in the result it returns. *)
Definition failed : ToolResponse :=
  RespObj [TextContent "Error executing tool get_workers_tool"] true.

Definition tool_reports_error : Script :=
  mkScript [workers_tool; worker_tool]
           [asks [tc "call_1" "get_workers_tool" "{}"]; says "one"]
           [inr failed] [] None.

(** One tool call, then the completion after it fails. *)
Definition final_fails : Script :=
  mkScript [workers_tool; worker_tool]
           [asks [tc "call_1" "get_workers_tool" "{}"]; inl unreachable]
           [inr hello] [] None.

(** No tool call: the model answers directly. *)
Definition direct_answer : Script :=
  mkScript [workers_tool; worker_tool] [says "No workers found."] [] [] None.

Definition run (w : Script) : (Exn + string) * State :=
  process_query client "q" w.

Definition hello_text : string :=
  "meta=None content=[TextContent(type='text', text='hello', annotations=None)] isError=False".

(** The request of the completion that fails in [final_fails]. *)
Definition final_fails_request : ChatRequest :=
  final_request client
    [MsgSystem SYSTEM_PROMPT; MsgUser "q";
     MsgAssistant
       (mkChatMessage None (Some [tc "call_1" "get_workers_tool" "{}"]));
     MsgTool "call_1" (DStr hello_text)].

(** The server process is gone when the exit stack is closed. *)
Definition process_gone : Script :=
  mkScript [] [] [] [] (Some (mkExn ProcessLookupError EmptyString)).

End Scripted.

(** * The console client and the web service

    [chat_loop] and [main] of [src/get_worker_client.py], and the routes of
    [src/app.py].  A string read from the console is the sequence of the
    code points of the text, each below 256; [strip] and [lower] act on
    them as [str.strip] and [str.lower] do.  The properties of the chat
    loop are stated for ASCII input. *)

(** [c.isspace()] for a code point below 256: the controls 9-13 and 28-31,
    the space, NEXT LINE (133) and NO-BREAK SPACE (160). *)
Definition is_space (c : ascii) : bool :=
  let n := nat_of_ascii c in
  (Nat.leb 9 n && Nat.leb n 13) || (Nat.leb 28 n && Nat.leb n 32)
  || Nat.eqb n 133 || Nat.eqb n 160.

Fixpoint lstrip (s : string) : string :=
  match s with
  | EmptyString => EmptyString
  | String c rest => if is_space c then lstrip rest else s
  end.

Fixpoint rev_string (s acc : string) : string :=
  match s with
  | EmptyString => acc
  | String c rest => rev_string rest (String c acc)
  end.

Definition rstrip (s : string) : string :=
  rev_string (lstrip (rev_string s EmptyString)) EmptyString.

(** [s.strip()] *)
Definition strip (s : string) : string := rstrip (lstrip s).

(** [c.lower()] for a code point below 256: the letters A-Z, and the
    capital letters 192-222 of Latin-1 but for the sign 215. *)
Definition lower_char (c : ascii) : ascii :=
  let n := nat_of_ascii c in
  if (Nat.leb 65 n && Nat.leb n 90)
     || (Nat.leb 192 n && Nat.leb n 222 && negb (Nat.eqb n 215))
  then ascii_of_nat (n + 32) else c.

(** [s.lower()] *)
Fixpoint lower (s : string) : string :=
  match s with
  | EmptyString => EmptyString
  | String c rest => String (lower_char c) (lower rest)
  end.

(** The text is ASCII: every code point is below 128. *)
Fixpoint is_ascii_text (s : string) : bool :=
  match s with
  | EmptyString => true
  | String c rest => Nat.ltb (nat_of_ascii c) 128 && is_ascii_text rest
  end.

(** Every line that [input] returns is ASCII. *)
Definition ascii_input (inputs : list (Exn + string)) : Prop :=
  forall line, In (inr line) inputs -> is_ascii_text line = true.

(** [os.path.join(d, name)] on a POSIX system, for a relative [name]. *)
Definition os_path_join (d name : string) : string :=
  if String.eqb d EmptyString then name
  else if endswith d "/" then d ++ name
  else d ++ "/" ++ name.

Section Console.

Context {W Sess Transport : Type} {C : Collaborators W Sess Transport}.

(** [MCPClient()]: lines 21-26, with the environment as a function;
    [llm_error] is what the constructor [OpenAI(...)] raises, if anything. *)
Definition new_client (getenv : string -> option string)
           (llm_error : option Exn) : Exn + @MCPClient Sess Transport :=
  match llm_error with
  | Some e => inl e
  | None =>
      inr (mkClient None []
                    (match getenv "MODEL_NAME" with
                     | Some m => m
                     | None => "gpt-3.5-turbo"
                     end))
  end.

(** How the loop stands after the input that was given: left through
    [break], or waiting in [input] for more. *)
Inductive LoopEnd : Type :=
| Quit
| AwaitingInput.

Record LoopResult : Type := mkLoop {
  loop_end : LoopEnd;
  loop_world : W;
  loop_events : list Event;
  queries : list string
}.

(** The test of line 186 on the text that [input] returned. *)
Definition is_quit (line : string) : bool :=
  String.eqb (lower (strip line)) "quit".

(** One pass of [while True] per input; each input is the line that
    [input] returns or the exception it raises. *)
Fixpoint chat_loop_from (self : @MCPClient Sess Transport)
         (inputs : list (Exn + string)) (w : W) (evs : list Event)
         (asked : list string) : LoopResult :=
  match inputs with
  | [] => mkLoop AwaitingInput w evs asked
  | inl e :: rest =>
      chat_loop_from self rest w
        (evs ++ [EvPrint (nl ++ "Error: " ++ exn_str e)]) asked
  | inr line :: rest =>
      let query := strip line in
      if String.eqb (lower query) "quit" then mkLoop Quit w evs asked
      else
        match process_query self query w with
        | (inr response, st) =>
            chat_loop_from self rest (world st)
              (evs ++ trace st ++ [EvPrint (nl ++ response)])
              (asked ++ [query])
        | (inl e, st) =>
            chat_loop_from self rest (world st)
              (evs ++ trace st ++ [EvPrint (nl ++ "Error: " ++ exn_str e)])
              (asked ++ [query])
        end
  end.

Definition chat_loop (self : @MCPClient Sess Transport)
           (inputs : list (Exn + string)) (w : W) : LoopResult :=
  chat_loop_from self inputs w
    [EvPrint (nl ++ "MCP Client Started!");
     EvPrint "Type your queries or 'quit' to exit."]
    [].

(** How [main] stands: [sys.exit], normal end, an exception, or still in
    the chat loop. *)
Inductive MainEnd : Type :=
| Exited (code : nat)
| Finished
| Failed (e : Exn)
| InChatLoop.

Record MainResult : Type := mkMain {
  main_end : MainEnd;
  main_world : W;
  main_events : list Event
}.

(** [main]: [argv] is [sys.argv]. *)
Definition main (getenv : string -> option string)
           (llm_error : option Exn) (argv : list string)
           (inputs : list (Exn + string)) (w : W) : MainResult :=
  match argv with
  | _ :: server_script_path :: _ =>
      match new_client getenv llm_error with
      | inl e => mkMain (Failed e) w []
      | inr client =>
          let ev0 := [EvPrint "Connecting to server..."] in
          let r := connect_to_server client server_script_path w in
          match raised r with
          | Some e =>
              let c := cleanup (self_after r) (world_after r) in
              mkMain (Failed e) (world_after c) (ev0 ++ events r ++ events c)
          | None =>
              let l := chat_loop (self_after r) inputs (world_after r) in
              match loop_end l with
              | AwaitingInput =>
                  mkMain InChatLoop (loop_world l)
                         (ev0 ++ events r ++ loop_events l)
              | Quit =>
                  let c := cleanup (self_after r) (loop_world l) in
                  mkMain Finished (world_after c)
                         (ev0 ++ events r ++ loop_events l ++ events c)
              end
          end
      end
  | _ =>
      mkMain (Exited 1) w
             [EvPrint "Usage: python client.py <path_to_server_script>"]
  end.

End Console.

(** ** The routes of [src/app.py] *)

Module App.

Record QueryResponse : Type := mkQueryResponse {
  success : bool;
  response : option string;
  error : option string
}.

(** What a route gives: its return value, or the [HTTPException] it
    raises. *)
Inductive Reply (A : Type) : Type :=
| Returns (body : A)
| HTTPException (status_code : nat) (detail : string).
Arguments HTTPException {A} status_code detail.

(** The body of [/capabilities]. *)
Inductive Capabilities : Type :=
| CapTools (tools : list (string * string))
| CapError (error : string).

Section Routes.

Context {W Sess Transport : Type} {C : Collaborators W Sess Transport}.

(** The method of the client, which the route of the same name calls. *)
Local Abbreviation client_process_query := process_query.

(** The global [mcp_client], after an event or a route. *)
Record Served (A : Type) : Type := mkServed {
  reply : A;
  mcp_client : option (@MCPClient Sess Transport);
  served_world : W;
  served_events : list Event
}.

(** [startup_event]; [dirname] is [os.path.dirname(__file__)]. *)
Definition startup_event (getenv : string -> option string)
           (llm_error : option Exn) (dirname : string) (w : W)
  : Served (option Exn) :=
  match new_client getenv llm_error with
  | inl e =>
      mkServed (Some e) None w
               [EvPrint ("Failed to initialize MCP client: " ++ exn_str e)]
  | inr client =>
      let server_script_path :=
        os_path_join dirname "get_worker_server.py" in
      let r := connect_to_server client server_script_path w in
      match raised r with
      | None =>
          mkServed None (Some (self_after r)) (world_after r)
                   (events r ++ [EvPrint "MCP Client connected successfully"])
      | Some e =>
          mkServed (Some e) (Some (self_after r)) (world_after r)
                   (events r
                    ++ [EvPrint ("Failed to initialize MCP client: "
                                 ++ exn_str e)])
      end
  end.

(** [shutdown_event] *)
Definition shutdown_event (client : option (@MCPClient Sess Transport))
           (w : W) : Served (option Exn) :=
  match client with
  | Some c =>
      let r := cleanup c w in
      mkServed (raised r) (Some (self_after r)) (world_after r) (events r)
  | None => mkServed None None w []
  end.

(** The route [/query]. *)
Definition process_query (client : option (@MCPClient Sess Transport))
           (query : string) (w : W) : Served (Reply QueryResponse) :=
  match client with
  | None =>
      mkServed (HTTPException 500 "MCP client not initialized") None w []
  | Some c =>
      match client_process_query c query w with
      | (inr r, st) =>
          mkServed (Returns (mkQueryResponse true (Some r) None)) (Some c)
                   (world st) (trace st)
      | (inl e, st) =>
          mkServed (Returns (mkQueryResponse false None (Some (exn_str e))))
                   (Some c) (world st) (trace st)
      end
  end.

(** The route [/capabilities]. *)
Definition get_capabilities (client : option (@MCPClient Sess Transport))
           (w : W) : Served (Reply Capabilities) :=
  match client with
  | None =>
      mkServed (HTTPException 500 "MCP client not initialized") None w []
  | Some c =>
      match session c with
      | Some s =>
          match list_tools s w with
          | (inr tools, w') =>
              mkServed
                (Returns
                   (CapTools
                      (map (fun tool => (tool_name tool, tool_description tool))
                           tools)))
                (Some c) w' [EvListTools]
          | (inl e, w') =>
              mkServed (HTTPException 500 (exn_str e)) (Some c) w'
                       [EvListTools]
          end
      | None =>
          mkServed (Returns (CapError "Session not available")) (Some c) w []
      end
  end.

End Routes.

End App.

(** * The tool server

    [src/mcp-workday/get_worker_server.py]: the call to the Workday API and
    the tools and resources built on it.  The HTTP library, the JSON writer
    and the two settings read from the environment are an interface. *)

Module Server.

(** The [except] clause of [get_workday_data] that an exception meets
    first, by its class: [HTTPError]; any other [RequestException]; a
    [json.JSONDecodeError] that is no [RequestException]; anything else. *)
Inductive ExceptClause : Type :=
| IsHTTPError
| IsRequestException
| IsJSONDecodeError
| IsException.

Record HttpExn : Type := mkHttpExn {
  caught_as : ExceptClause;
  http_exn_str : string
}.

(** A [requests.Response]: what [raise_for_status()] raises, if anything,
    and what [json()] gives. *)
Record Response : Type := mkResponse {
  status_code : Z;
  text : string;
  raise_for_status : option HttpExn;
  json : HttpExn + PyVal
}.

(** A call [requests.get(url, headers=headers, params=params)]. *)
Record Request : Type := mkRequest {
  url : string;
  headers : list (string * string);
  params : option PyVal
}.

Class Http (HW : Type) : Type := {
  WORKDAY_API_URL : string;
  WORKDAY_API_TOKEN : option string;
  requests_get : Request -> HW -> (HttpExn + Response) * HW;
  (** [json.dumps(v)] and [json.dumps(v, indent=n)] *)
  json_dumps : PyVal -> option nat -> string
}.

Section Tools.

Context {HW : Type} {H : Http HW}.

(** What a function of the server gives: its value or exception, the world
    and the requests made. *)
Record Run (A : Type) : Type := mkRun {
  result : Exn + A;
  http_world : HW;
  requests : list Request
}.

(** [not WORKDAY_API_TOKEN] *)
Definition token_missing : bool :=
  match WORKDAY_API_TOKEN with
  | None => true
  | Some t => String.eqb t EmptyString
  end.

Definition bearer : string :=
  "Bearer " ++ match WORKDAY_API_TOKEN with
               | Some t => t
               | None => "None"
               end.

(** The headers of lines 27-30. *)
Definition api_headers : list (string * string) :=
  [("Authorization", bearer); ("Content-Type", "application/json")].

Definition error_dict (message : string) (code : Z) : PyVal :=
  PDict [("error", PStr message); ("status_code", PInt code)].

(** The [except] clauses of lines 42-51; [response] is unbound when
    [requests.get] itself raised. *)
Definition handle (response : option Response) (e : HttpExn) : Exn + PyVal :=
  match caught_as e with
  | IsHTTPError =>
      match response with
      | Some r =>
          inr (error_dict ("Workday API error: " ++ http_exn_str e
                           ++ ", Response: " ++ text r)
                          (status_code r))
      | None =>
          inl (mkExn UnboundLocalError
                 "cannot access local variable 'response' where it is not associated with a value")
      end
  | IsRequestException =>
      inr (error_dict ("Request failed: " ++ http_exn_str e) 500)
  | IsJSONDecodeError => inr (error_dict "Response is not valid JSON" 500)
  | IsException =>
      inr (error_dict ("Unexpected error: " ++ http_exn_str e) 500)
  end.

(** Lines 19-51. *)
Definition get_workday_data (url : string) (params : option PyVal) (hw : HW)
  : Run PyVal :=
  if token_missing then
    mkRun (inl (mkExn ValueError
                  "Missing API token. Set WORKDAY_API_TOKEN environment variable."))
          hw []
  else
    let headers := [("Authorization", bearer);
                    ("Content-Type", "application/json")] in
    let request := mkRequest url headers params in
    match requests_get request hw with
    | (inl e, hw') => mkRun (handle None e) hw' [request]
    | (inr response, hw') =>
        match raise_for_status response with
        | Some e => mkRun (handle (Some response) e) hw' [request]
        | None =>
            match json response with
            | inr v => mkRun (inr v) hw' [request]
            | inl e => mkRun (handle (Some response) e) hw' [request]
            end
        end
    end.

(** [k in v] *)
Definition py_in (k : string) (v : PyVal) : Exn + bool :=
  match v with
  | PDict d =>
      inr (match dict_get k d with Some _ => true | None => false end)
  | PList l =>
      inr (existsb (fun x => match x with
                             | PStr s => String.eqb s k
                             | _ => false
                             end) l)
  | PStr s =>
      inr (match index 0 k s with Some _ => true | None => false end)
  | _ => inl (mkExn TypeError "argument is not iterable")
  end.

(** [v[k]] for a str [k] *)
Definition py_getitem (v : PyVal) (k : string) : Exn + PyVal :=
  match v with
  | PDict d =>
      match dict_get k d with
      | Some x => inr x
      | None => inl (mkExn (OtherError "KeyError") k)
      end
  | _ => inl (mkExn TypeError "indices must be integers")
  end.

(** Lines 61-63 and 85-88: what a resource returns for [result]. *)
Definition resource_text (r : PyVal) : Exn + string :=
  match py_in "error" r with
  | inl e => inl e
  | inr true =>
      match py_getitem r "error" with
      | inl e => inl e
      | inr msg => inr (json_dumps (PDict [("error", msg)]) None)
      end
  | inr false => inr (json_dumps r (Some 2))
  end.

Definition resource_of (run : Run PyVal) : Run string :=
  match result run with
  | inl e => mkRun (inl e) (http_world run) (requests run)
  | inr r => mkRun (resource_text r) (http_world run) (requests run)
  end.

(** Lines 55-63. *)
Definition get_workers (hw : HW) : Run string :=
  resource_of (get_workday_data WORKDAY_API_URL None hw).

Definition worker_id_required : string :=
  json_dumps (PDict [("error", PStr "worker_id is required")]) None.

(** Lines 65-88. *)
Definition get_worker (worker_id : string) (hw : HW) : Run string :=
  if String.eqb worker_id EmptyString then
    mkRun (inr worker_id_required) hw []
  else
    resource_of (get_workday_data (WORKDAY_API_URL ++ "/" ++ worker_id)
                                  None hw).

(** Lines 107-113: an argument that is [None], zero or empty is left
    out. *)
Definition query_params (limit offset : option Z) (search : option string)
  : list (string * PyVal) :=
  match offset with
  | Some o => if Z.eqb o 0 then [] else [("offset", PInt o)]
  | None => []
  end
  ++ match limit with
     | Some l => if Z.eqb l 0 then [] else [("limit", PInt l)]
     | None => []
     end
  ++ match search with
     | Some s => if String.eqb s EmptyString then [] else [("search", PStr s)]
     | None => []
     end.

Definition tool_of (run : Run PyVal) : Run string :=
  match result run with
  | inl e => mkRun (inl e) (http_world run) (requests run)
  | inr r => mkRun (inr (json_dumps r (Some 2))) (http_world run)
                   (requests run)
  end.

(** Lines 94-119. *)
Definition get_workers_tool (limit offset : option Z) (search : option string)
           (hw : HW) : Run string :=
  tool_of (get_workday_data WORKDAY_API_URL
                            (Some (PDict (query_params limit offset search)))
                            hw).

(** Lines 121-146. *)
Definition get_worker_details_tool (worker_id : string) (hw : HW)
  : Run string :=
  if String.eqb worker_id EmptyString then
    mkRun (inr worker_id_required) hw []
  else
    tool_of (get_workday_data (WORKDAY_API_URL ++ "/" ++ worker_id)
                              (Some (PDict [("include", PStr "details")]))
                              hw).

End Tools.

End Server.

(** * More scripted cases *)

Module Cases.

Import Scripted.

(** A client that never connected. *)
Definition unconnected : @MCPClient unit unit :=
  mkClient None [] "gpt-3.5-turbo".

(** The initial completion fails. *)
Definition initial_fails : Script :=
  mkScript [workers_tool; worker_tool] [inl unreachable] [] [] None.

(** The model answers with no content and no tool call. *)
Definition no_content : Script :=
  mkScript [workers_tool; worker_tool]
           [inr (mkChatCompletion [mkChatMessage None None])] [] [] None.

(** Arguments that ask for a prompt template. *)
Definition template_request : PyVal :=
  PDict [("prompt_template", PStr "worker_search_prompt");
         ("template_args", PDict [("name", PStr "Jane"); ("active", PBool true)])].

(** What the server renders: one message of role user and one of role
    assistant, in an object with [messages] and no [message]. *)
Definition rendered : PromptResult :=
  mkPromptResult
    (Some [mkPromptMessage "user" (PromptText "I need to find employee information");
           mkPromptMessage "assistant" (PromptText "Use get_workers_tool")])
    false.

Definition template_world : Script :=
  mkScript [workers_tool; worker_tool] [] [] [inr rendered] None.

Definition template_state : @State Script :=
  mkState template_world [] [] (Some template_request) [].

(** A state in which an earlier call left its arguments. *)
Definition after_first_call : @State Script :=
  mkState (mkScript [workers_tool; worker_tool] [says "two"] [inr hello] []
                    None)
          [] [] (Some (PDict [])) [].

(** Two tool calls: the first tool reports an error in its result, the
    call of the second raises. *)
Definition error_then_raise : Script :=
  mkScript [workers_tool; worker_tool] [asks both; says "one"]
           [inr failed; inl unreachable] [] None.

(** Collaborators that are all out of reach. *)
Definition offline : Collaborators unit bool unit :=
  {| json_loads := loads;
     py_str := str_of;
     str_response := str_of_response;
     str_template_message := str_of_template_message;
     stdio_client := fun _ _ w => (inr tt, w);
     client_session := fun _ w => (inr true, w);
     initialize := fun _ w => (inl unreachable, w);
     list_tools := fun _ w => (inl unreachable, w);
     call_tool := fun _ _ _ w => (inl unreachable, w);
     get_prompt := fun _ _ _ w => (inl unreachable, w);
     chat_create := fun _ w => (inl unreachable, w);
     aclose := fun _ w => (Some unreachable, w) |}.

Definition stale : @MCPClient bool unit := mkClient (Some true) [] "gpt-3.5-turbo".

Definition fresh : @MCPClient bool unit := mkClient None [] "gpt-3.5-turbo".

(** ** The HTTP side *)

Definition quote : string := String (ascii_of_nat 34) EmptyString.

(** A compact [json.dumps], without the line breaks of [indent]. *)
Fixpoint dumps (v : PyVal) : string :=
  match v with
  | PNone => "null"
  | PBool true => "true"
  | PBool false => "false"
  | PInt z => DecimalString.NilZero.string_of_int (Z.to_int z)
  | PStr s => quote ++ s ++ quote
  | PList l =>
      "[" ++ join ", " ((fix each (l : list PyVal) : list string :=
                           match l with
                           | [] => []
                           | x :: rest => dumps x :: each rest
                           end) l) ++ "]"
  | PDict d =>
      "{" ++ join ", " ((fix each (d : list (string * PyVal)) : list string :=
                           match d with
                           | [] => []
                           | (k, x) :: rest =>
                               (quote ++ k ++ quote ++ ": " ++ dumps x)%string
                               :: each rest
                           end) d) ++ "}"
  end.

(** The answers of the API, one per request. *)
Definition next_response (_ : Server.Request)
           (w : list (Server.HttpExn + Server.Response))
  : (Server.HttpExn + Server.Response) * list (Server.HttpExn + Server.Response) :=
  match w with
  | r :: rest => (r, rest)
  | [] => (inl (Server.mkHttpExn Server.IsRequestException "Connection refused"),
           [])
  end.

Definition api : string := "https://api.us.wcp.workday.com/common/v1/workers".

Definition with_token : Server.Http (list (Server.HttpExn + Server.Response)) :=
  {| Server.WORKDAY_API_URL := api;
     Server.WORKDAY_API_TOKEN := Some "secret";
     Server.requests_get := next_response;
     Server.json_dumps := fun v _ => dumps v |}.

Definition without_token : Server.Http (list (Server.HttpExn + Server.Response)) :=
  {| Server.WORKDAY_API_URL := api;
     Server.WORKDAY_API_TOKEN := None;
     Server.requests_get := next_response;
     Server.json_dumps := fun v _ => dumps v |}.

Definition not_found : Server.Response :=
  Server.mkResponse 404 "Not Found"
    (Some (Server.mkHttpExn Server.IsHTTPError "404 Client Error"))
    (inr (PDict [])).

Definition null_body : Server.Response :=
  Server.mkResponse 200 "null" None (inr PNone).

Definition jane : Server.Response :=
  Server.mkResponse 200 "{...}" None
    (inr (PDict [("name", PStr "Jane Doe")])).

End Cases.

(** * What the properties speak of

    Predicates on states and traces that describe what each phase of one
    tool call leaves behind. *)

Section Specs.

Context {W Sess Transport : Type} {C : Collaborators W Sess Transport}.

Local Abbreviation Client := (@MCPClient Sess Transport).
Local Abbreviation St := (@State W).

Definition only_prints (tr : list Event) : Prop :=
  Forall (fun ev => exists line, ev = EvPrint line) tr.

(** What [execute_tool_call] leaves behind when it completes. *)
Definition executed_state (tool_call : ToolCall) (st st' : St) : Prop :=
  exists a c e,
    tool_args st = Some a
    /\ tool_args st' = Some a
    /\ messages st'
       = messages st
         ++ [MsgTool (id tool_call) (DStr (str_response (RespObj c e)))]
    /\ final_text st'
       = final_text st
         ++ [DStr (announcement (name (function tool_call)) a);
             DStr (str_response (RespObj c e))]
    /\ trace st'
       = trace st
         ++ [EvCallTool (name (function tool_call)) a (inr (RespObj c e))].

(** What it leaves behind when it raises: at most the event of a call that
    did not come back with a result object. *)
Definition aborted_state (st st' : St) : Prop :=
  messages st' = messages st
  /\ (trace st' = trace st
      \/ exists t a r, trace st' = trace st ++ [EvCallTool t a r]
                      /\ forall c e, r <> inr (RespObj c e)).

(** The lines that the template loop appends for a rendered template. *)
Definition assistant_lines (msgs : list PromptMessage) : list string :=
  map (fun m => ("LLM response: "
                 ++ str_template_message (role m) (pm_content m))%string)
      (filter (fun m => String.eqb (role m) "assistant") msgs).

(** Events of the template phase: the prompt fetch and the error report. *)
Definition template_event (ev : Event) : Prop :=
  match ev with
  | EvGetPrompt _ _ _ => True
  | EvPrint _ => True
  | _ => False
  end.

Definition template_post (st st' : St) (out : Outcome unit) : Prop :=
  out = Normal tt
  /\ messages st' = messages st
  /\ tool_args st' = tool_args st
  /\ exists msgs delta,
       final_text st' = final_text st ++ map DStr (assistant_lines msgs)
       /\ trace st' = trace st ++ delta
       /\ Forall template_event delta
       /\ (msgs = []
           \/ exists t a pr, In (EvGetPrompt t a (inr pr)) delta
                            /\ pr_messages pr = Some msgs).

Definition final_error_text (e : Exn) : string :=
  "Error in final LLM call: " ++ exn_str e.

(** The completion after a tool call went through. *)
Definition final_done (self : Client) (st st' : St) : Prop :=
  exists c t,
    final_text st' = final_text st ++ [DStr ("LLM final response: " ++ t)]
    /\ trace st'
       = trace st ++ [EvChatCreate (final_request self (messages st)) (inr c)].

(** The completion after a tool call failed with [e]: the handler ran. *)
Definition final_failed (self : Client) (st st' : St) (e : Exn) : Prop :=
  exists r,
    final_text st' = final_text st ++ [DStr (final_error_text e)]
    /\ trace st'
       = trace st ++ [EvChatCreate (final_request self (messages st)) r;
                      EvPrint (final_error_text e)]
    /\ (forall e', r = inl e' -> e' = e).

Definition final_post (self : Client) (st st' : St) (out : Outcome unit)
  : Prop :=
  messages st' = messages st
  /\ tool_args st' = tool_args st
  /\ ((out = Normal tt /\ final_done self st st')
      \/ (exists e, final_failed self st st' e
                    /\ out = match join_lines (final_text st') with
                             | inr s => Returned s
                             | inl e' => Raised e'
                             end)).

(** What [parse_tool_args] leaves behind: [tool_args] is rebound when the
    text parses and keeps its former value, if any, when it does not. *)
Definition parsed_state (tool_call : ToolCall) (st st1 : St) : Prop :=
  world st1 = world st
  /\ messages st1 = messages st
  /\ final_text st1 = final_text st
  /\ tool_args st1
     = match json_loads (arguments (function tool_call)) with
       | inr v => Some v
       | inl _ => tool_args st
       end
  /\ exists p, trace st1 = trace st ++ p /\ only_prints p.

(** The state in which the branch on [tool_calls] is reached. *)
Definition after_initial (self : Client) (query : string) (tools : list Tool)
           (c : ChatCompletion) (msg : ChatMessage) (w : W) : St :=
  mkState w [MsgSystem SYSTEM_PROMPT; MsgUser query; MsgAssistant msg] []
          None
          [EvListTools;
           EvChatCreate
             (initial_request self [MsgSystem SYSTEM_PROMPT; MsgUser query]
                              (map available_tool tools))
             (inr c)].

(** Lines 99-168: the branch on [tool_calls]. *)
Definition branch (self : Client) (msg : ChatMessage) : M unit :=
  match tool_calls msg with
  | Some (tc :: tcs) => for_each (resolve_tool_call self) (tc :: tcs)
  | _ => final_text_append (dyn_of_content (content msg))
  end.

(** Every tool call that was executed has its announcement and its result
    text among the fragments. *)
Definition tool_work_kept (tr : list Event) (frags : list string) : Prop :=
  forall t a r,
    In (t, a, r) (executed tr) ->
    In (announcement t a) frags
    /\ exists text, tool_result_content r = inr (DStr text) /\ In text frags.

(** No completion without [tools] has failed. *)
Definition no_final_failure (tr : list Event) : Prop :=
  forall req e, In (EvChatCreate req (inl e)) tr -> req_tools req <> None.

Definition not_chat (ev : Event) : Prop :=
  match ev with
  | EvChatCreate _ _ => False
  | _ => True
  end.

Definition during_loop (st : St) : Prop :=
  exists frags,
    final_text st = map DStr frags
    /\ tool_work_kept (trace st) frags
    /\ no_final_failure (trace st).

(** The answer returned from inside the loop. *)
Definition answer_after_failure (s : string) (st : St) : Prop :=
  exists frags e,
    s = join nl (frags ++ [final_error_text e])
    /\ tool_work_kept (trace st) frags
    /\ forall req e',
         In (EvChatCreate req (inl e')) (trace st) ->
         req_tools req = None -> e' = e.

Definition iteration_post (out : Outcome unit) (st' : St) : Prop :=
  match out with
  | Normal _ => during_loop st'
  | Returned s => answer_after_failure s st'
  | Raised _ => no_final_failure (trace st')
  end.

End Specs.

(** ** Tool calls that fail *)

Section FailureSpecs.

Context {W Sess Transport : Type} {C : Collaborators W Sess Transport}.

(** No call of a tool has raised. *)
Definition no_failed_call (tr : list Event) : Prop :=
  forall t a e, ~ In (EvCallTool t a (inl e)) tr.

(** A tool call with the event of its execution, and the tool message [m]:
    the tool of the call was called and came back with a result; the text
    that the code makes of the result is a fragment of the answer [ft] and
    the content of [m], and [m] carries the id of the call. *)
Definition surfaced (ft : list Dyn)
           (p : ToolCall * (string * PyVal * ToolResponse)) (m : Message)
  : Prop :=
  exists text,
    fst (fst (snd p)) = name (function (fst p))
    /\ tool_result_content (snd (snd p)) = inr (DStr text)
    /\ m = MsgTool (id (fst p)) (DStr text)
    /\ In (DStr text) ft.

End FailureSpecs.

(** * Properties *)

Section Facts.

Context {W Sess Transport : Type} {C : Collaborators W Sess Transport}.
Local Open Scope py_scope.

Local Abbreviation Client := (@MCPClient Sess Transport).
Local Abbreviation St := (@State W).

(** ** Strings *)

Lemma join_single (sep x : string) : join sep [x] = x.
Proof. reflexivity. Qed.

Lemma strs_of_map_DStr (l : list string) : strs_of (map DStr l) = inr l.
Proof.
  induction l as [|x l IH]; simpl; [reflexivity|].
  now rewrite IH.
Qed.

Lemma join_lines_map_DStr (l : list string) :
  join_lines (map DStr l) = inr (join nl l).
Proof. unfold join_lines. now rewrite strs_of_map_DStr. Qed.

Example endswith_py : endswith "mcp-workday/get_worker_server.py" ".py" = true.
Proof. reflexivity. Qed.

Example endswith_short : endswith "py" ".py" = false.
Proof. reflexivity. Qed.

Example join_two : join nl ["a"; "b"] = ("a" ++ nl ++ "b")%string.
Proof. reflexivity. Qed.

(** ** Normalising a tool response *)

Lemma tool_result_content_obj (c : list ContentItem) (e : bool) :
  tool_result_content (RespObj c e) = inr (DStr (str_response (RespObj c e))).
Proof. reflexivity. Qed.

Lemma tool_result_content_is_str (r : ToolResponse) (d : Dyn) :
  tool_result_content r = inr d -> exists t, d = DStr t.
Proof.
  destruct r; simpl; intros H; try discriminate.
  inversion H. eauto.
Qed.

(** ** [cleanup] *)

(** C9: when closing the exit stack raises [ProcessLookupError], [cleanup]
    returns normally: it raises nothing and reports nothing. *)
Theorem cleanup_process_already_terminated
        (self : Client) (w w' : W) (e : Exn) :
  aclose (exit_stack self) w = (Some e, w') ->
  exn_class e = ProcessLookupError ->
  raised (cleanup self w) = None /\ events (cleanup self w) = [].
Proof.
  intros Hclose Hclass. unfold cleanup, is_ProcessLookupError.
  rewrite Hclose, Hclass. split; reflexivity.
Qed.

(** [cleanup] never raises an [Exception], whatever closing did. *)
Lemma cleanup_raises_nothing (self : Client) (w : W) :
  raised (cleanup self w) = None.
Proof.
  unfold cleanup. destruct (aclose (exit_stack self) w) as [[e|] w'];
    [destruct (is_ProcessLookupError e)|]; reflexivity.
Qed.

(** ** [connect_to_server] *)

(** C10: a path that ends in neither [.py] nor [.js] makes
    [connect_to_server] raise [ValueError] before anything is created: no
    collaborator is called, the world and the client are as they were, and
    the session of a client that had none is still [None]. *)
Theorem connect_to_server_rejects_other_suffix
        (self : Client) (server_script_path : string) (w : W) :
  endswith server_script_path ".py" = false ->
  endswith server_script_path ".js" = false ->
  session self = None ->
  raised (connect_to_server self server_script_path w)
  = Some (mkExn ValueError "Server script must be a .py or .js file")
  /\ events (connect_to_server self server_script_path w) = []
  /\ world_after (connect_to_server self server_script_path w) = w
  /\ self_after (connect_to_server self server_script_path w) = self
  /\ session (self_after (connect_to_server self server_script_path w)) = None.
Proof.
  intros Hpy Hjs Hnone. unfold connect_to_server.
  rewrite Hpy, Hjs. simpl. repeat split; assumption.
Qed.

(** ** The phases of one tool call *)

#[local] Opaque String.append.

Lemma parse_tool_args_spec (tool_call : ToolCall) (st st' : St)
      (out : Outcome unit) :
  parse_tool_args tool_call st = (out, st') ->
  out = Normal tt
  /\ world st' = world st
  /\ messages st' = messages st
  /\ final_text st' = final_text st
  /\ tool_args st'
     = match json_loads (arguments (function tool_call)) with
       | inr v => Some v
       | inl _ => tool_args st
       end
  /\ exists p, trace st' = trace st ++ p /\ only_prints p.
Proof.
  unfold parse_tool_args, try_except, bind, lift_exn, set_tool_args, print, log,
    ret, raise.
  destruct (json_loads (arguments (function tool_call))) as [e|v]; simpl;
    intros H; inversion H; subst; clear H; simpl; repeat split.
  - exists [EvPrint ("Error parsing tool args: " ++ exn_str e)].
    split; [reflexivity|]. constructor; [eauto|constructor].
  - exists []. split; [now rewrite app_nil_r|constructor].
Qed.

Lemma execute_tool_call_spec (self : Client) (tool_call : ToolCall)
      (st st' : St) (out : Outcome unit) :
  execute_tool_call self tool_call st = (out, st') ->
  (out = Normal tt /\ executed_state tool_call st st')
  \/ ((exists e, out = Raised e) /\ aborted_state st st').
Proof.
  unfold execute_tool_call, bind, get_tool_args, the_session, call, lift_exn,
    final_text_append, messages_append, ret, raise, executed_state,
    aborted_state.
  destruct (tool_args st) as [a|] eqn:Ha; simpl.
  2:{ intros H; inversion H; subst. right. split; [eauto|]. split; auto. }
  destruct (session self) as [s|]; simpl.
  2:{ intros H; inversion H; subst. right. split; [eauto|]. simpl. auto. }
  destruct (call_tool s (name (function tool_call)) a (world st))
    as [[e|r] w'] eqn:Hcall; simpl.
  { intros H; inversion H; subst. right. split; [eauto|]. simpl. split; auto.
    right. do 3 eexists. split; [reflexivity|]. intros; discriminate. }
  destruct r as [l|t|c e|d]; simpl; intros H; inversion H; subst; clear H;
    simpl;
    try (right; split; [eauto|]; split; auto; right; do 3 eexists;
         split; [reflexivity|]; intros; discriminate).
  left. split; [reflexivity|]. exists a, c, e. simpl.
  rewrite <- !app_assoc. simpl. repeat split; auto.
Qed.

Lemma surface_template_messages (msgs : list PromptMessage) (st : St) :
  for_each surface_template_message msgs st
  = (Normal tt,
     mkState (world st) (messages st)
             (final_text st ++ map DStr (assistant_lines msgs))
             (tool_args st) (trace st)).
Proof.
  revert st. induction msgs as [|m msgs IH]; intros st; simpl.
  - unfold ret, assistant_lines. simpl. rewrite app_nil_r. now destruct st.
  - unfold bind, surface_template_message, assistant_lines in *. simpl.
    destruct (String.eqb (role m) "assistant"); simpl.
    + unfold final_text_append. rewrite IH. simpl.
      now rewrite <- app_assoc.
    + unfold ret. now rewrite IH.
Qed.

Lemma template_post_skip (st : St) : template_post st st (Normal tt).
Proof.
  repeat split. exists [], []. simpl. rewrite !app_nil_r.
  repeat split; auto.
Qed.

Lemma template_post_events (st : St) (w : W) (delta : list Event) :
  Forall template_event delta ->
  template_post st
    (mkState w (messages st) (final_text st) (tool_args st)
             (trace st ++ delta))
    (Normal tt).
Proof.
  intros Hd. repeat split. exists [], delta. simpl. rewrite app_nil_r.
  repeat split; auto.
Qed.

Lemma expand_template_spec (self : Client) (st st' : St)
      (out : Outcome unit) :
  expand_template self st = (out, st') -> template_post st st' out.
Proof.
  unfold expand_template, try_except, bind, get_tool_args, print, log, ret.
  destruct (tool_args st) as [a|] eqn:Ha; simpl.
  2:{ intros H; inversion H; subst.
      apply template_post_events. repeat constructor. }
  destruct a as [| | | |l|d]; simpl;
    try (intros H; inversion H; subst; apply template_post_skip).
  destruct (dict_get "prompt_template" d) as [pt|]; simpl;
    try (intros H; inversion H; subst; apply template_post_skip).
  destruct (dict_get "template_args" d) as [ta|]; simpl;
    try (intros H; inversion H; subst; apply template_post_skip).
  unfold lift_exn, raise, ret.
  destruct (string_args_of ta) as [e|sa]; simpl.
  { intros H; inversion H; subst. apply template_post_events.
    repeat constructor. }
  unfold the_session, raise, ret.
  destruct (session self) as [s|]; simpl.
  2:{ intros H; inversion H; subst. apply template_post_events.
      repeat constructor. }
  unfold call, lift_exn, raise, ret.
  destruct (get_prompt s pt sa (world st)) as [[e|pr] w'] eqn:Hget; simpl.
  { intros H; inversion H; subst; clear H. rewrite <- app_assoc.
    apply template_post_events. repeat constructor. }
  destruct (pr_messages pr) as [msgs|] eqn:Hmsgs; simpl.
  2:{ intros H; inversion H; subst; clear H.
      apply template_post_events. repeat constructor. }
  destruct (pr_has_message pr); simpl.
  2:{ intros H; inversion H; subst; clear H.
      apply template_post_events. repeat constructor. }
  rewrite surface_template_messages. simpl.
  intros H; inversion H; subst; clear H. repeat split; auto.
  exists msgs, [EvGetPrompt pt sa (inr pr)]. repeat split; auto.
  - repeat constructor.
  - right. exists pt, sa, pr. split; [left; reflexivity|assumption].
Qed.

Ltac handler_runs e r :=
  let Hjoin := fresh "Hjoin" in
  let H := fresh "H" in
  match goal with
  | |- context [join_lines ?l] => destruct (join_lines l) eqn:Hjoin
  end;
  simpl; intros H; inversion H; subst; clear H; simpl;
  (split; [reflexivity|]; split; [reflexivity|]; right; exists e; simpl;
   rewrite Hjoin; split; [|reflexivity]; exists r;
   rewrite <- app_assoc; repeat split; auto; congruence).

Lemma final_completion_spec (self : Client) (st st' : St)
      (out : Outcome unit) :
  final_completion self st = (out, st') -> final_post self st st' out.
Proof.
  unfold final_completion, try_except, bind, get_messages, call, lift_exn,
    final_text_append, print, log, return_joined, bind, get_final_text,
    lift_exn, return_, ret, raise,
    final_post, final_done, final_failed, final_error_text.
  destruct (chat_create (final_request self (messages st)) (world st))
    as [[e|c] w'] eqn:Hchat; simpl.
  - handler_runs e (@inl Exn ChatCompletion e).
  - unfold first_choice. destruct (choices c) as [|m ms] eqn:Hch; simpl.
    + handler_runs (mkExn IndexError "list index out of range")
                   (@inr Exn ChatCompletion c).
    + unfold str_add. destruct (content m) as [t|] eqn:Hc; simpl.
      * intros H; inversion H; subst; clear H; simpl.
        split; [reflexivity|]. split; [reflexivity|]. left.
        split; [reflexivity|]. exists c, t. split; reflexivity.
      * handler_runs
          (mkExn TypeError "can only concatenate str (not 'NoneType') to str")
          (@inr Exn ChatCompletion c).
Qed.

(** One iteration of the loop: the arguments are parsed (or not), then
    either the tool call aborts the iteration with an exception, or it goes
    through and the template phase and the completion follow. *)
Lemma resolve_tool_call_spec (self : Client) (tool_call : ToolCall)
      (st st' : St) (out : Outcome unit) :
  resolve_tool_call self tool_call st = (out, st') ->
  exists st1,
    parsed_state tool_call st st1
    /\ (((exists e, out = Raised e) /\ aborted_state st1 st')
        \/ exists st2 st3,
             executed_state tool_call st1 st2
             /\ template_post st2 st3 (Normal tt)
             /\ final_post self st3 st' out).
Proof.
  unfold resolve_tool_call, bind. intros H.
  destruct (parse_tool_args tool_call st) as [o1 st1] eqn:E1.
  apply parse_tool_args_spec in E1. destruct E1 as [-> E1].
  exists st1. split; [exact E1|].
  destruct (execute_tool_call self tool_call st1) as [o2 st2] eqn:E2.
  apply execute_tool_call_spec in E2.
  destruct E2 as [[-> E2]|[[e ->] E2]].
  2:{ inversion H; subst. left. split; [eauto|assumption]. }
  destruct (expand_template self st2) as [o3 st3] eqn:E3.
  apply expand_template_spec in E3. pose proof E3 as [-> _].
  apply final_completion_spec in H.
  right. exists st2, st3. auto.
Qed.

(** ** Reading traces and messages *)

Lemma tool_call_ids_app (a b : list Message) :
  tool_call_ids (a ++ b) = tool_call_ids a ++ tool_call_ids b.
Proof.
  induction a as [|m a IH]; simpl; [reflexivity|].
  destruct m; simpl; now rewrite IH.
Qed.

Lemma executed_app (a b : list Event) :
  executed (a ++ b) = executed a ++ executed b.
Proof.
  induction a as [|ev a IH]; simpl; [reflexivity|].
  destruct ev as [| | | | |t x [e|[l|z|c e|d]]| |]; simpl; now rewrite IH.
Qed.

Lemma executed_prints (p : list Event) : only_prints p -> executed p = [].
Proof.
  induction 1 as [|ev p [line ->] _ IH]; simpl; auto.
Qed.

Lemma executed_template (d : list Event) :
  Forall template_event d -> executed d = [].
Proof.
  induction 1 as [|ev d Hev _ IH]; simpl; auto.
  destruct ev; simpl in *; auto; contradiction.
Qed.

Lemma executed_no_result (t : string) (a : PyVal) (r : Exn + ToolResponse) :
  (forall c e, r <> inr (RespObj c e)) -> executed [EvCallTool t a r] = [].
Proof.
  intros H. destruct r as [e|[l|z|c e|d]]; simpl; auto.
  exfalso. eapply H. reflexivity.
Qed.

(** One iteration either adds nothing to the conversation and executes
    nothing, and then does not complete; or it executes its tool and adds
    the tool message of its very call. *)
Lemma resolve_tool_call_messages (self : Client) (tool_call : ToolCall)
      (st st' : St) (out : Outcome unit) :
  resolve_tool_call self tool_call st = (out, st') ->
  (messages st' = messages st
   /\ executed (trace st') = executed (trace st)
   /\ out <> Normal tt)
  \/ (exists text x,
        messages st' = messages st ++ [MsgTool (id tool_call) (DStr text)]
        /\ executed (trace st') = executed (trace st) ++ [x]).
Proof.
  intros H. apply resolve_tool_call_spec in H.
  destruct H as (st1 & (_ & Hm1 & _ & _ & p & Ht1 & Hp) & H).
  destruct H as [[[e ->] [Hm Ht]]|(st2 & st3 & Hex & Htp & Hf)].
  - left. split; [congruence|]. split; [|discriminate].
    destruct Ht as [Ht|(t & a & r & Ht & Hr)]; rewrite Ht, Ht1.
    + rewrite executed_app, (executed_prints Hp). now rewrite app_nil_r.
    + rewrite !executed_app, (executed_prints Hp), (executed_no_result _ _ Hr).
      now rewrite !app_nil_r.
  - right.
    destruct Hex as (a & c & e & _ & _ & Hm2 & _ & Ht2).
    destruct Htp as (_ & Hm3 & _ & msgs & delta & _ & Ht3 & Hd & _).
    destruct Hf as (Hm4 & _ & Hf).
    exists (str_response (RespObj c e)),
           (name (function tool_call), a, RespObj c e).
    split; [congruence|].
    assert (Hmid : executed (trace st3)
                   = executed (trace st)
                     ++ [(name (function tool_call), a, RespObj c e)]).
    { rewrite Ht3, Ht2, Ht1, !executed_app, (executed_prints Hp),
        (executed_template Hd). simpl. now rewrite !app_nil_r. }
    destruct Hf as [[_ (c' & t & _ & Ht4)]|(e' & (r & _ & Ht4 & _) & _)];
      rewrite Ht4, executed_app, Hmid; simpl; now rewrite app_nil_r.
Qed.


(** ** The whole of [process_query] *)

Lemma return_joined_spec (A : Type) (st : St) :
  return_joined (A:=A) st
  = (match join_lines (final_text st) with
     | inr s => Returned s
     | inl e => Raised e
     end, st).
Proof.
  unfold return_joined, bind, get_final_text, lift_exn, return_, ret, raise.
  now destruct (join_lines (final_text st)).
Qed.

Lemma process_query_body_initial (self : Client) (query : string) (w w1 w2 : W)
      (s : Sess) (tools : list Tool) (c : ChatCompletion) (msg : ChatMessage) :
  session self = Some s ->
  list_tools s w = (inr tools, w1) ->
  chat_create (initial_request self [MsgSystem SYSTEM_PROMPT; MsgUser query]
                               (map available_tool tools)) w1
  = (inr c, w2) ->
  first_choice c = inr msg ->
  process_query_body self query (enter w)
  = bind (branch self msg) (fun _ => return_joined)
         (after_initial self query tools c msg w2).
Proof.
  intros Hs Hl Hc Hm.
  unfold process_query_body, branch, after_initial, enter, bind at 1 2 3 4 5 6 7 8,
    set_messages, the_session, call, get_messages, try_except, lift_exn,
    choices_0, set_final_text, messages_append, ret, raise.
  rewrite Hs. simpl. rewrite Hl. simpl.
  unfold bind at 1. simpl. rewrite Hc. simpl. rewrite Hm. simpl.
  reflexivity.
Qed.

Lemma process_query_state (self : Client) (query : string) (w : W) :
  snd (process_query self query w)
  = snd (process_query_body self query (enter w)).
Proof.
  unfold process_query.
  now destruct (process_query_body self query (enter w)) as [[a|r|e] st].
Qed.

(** After the initial completion, the final state is the one the branch
    ends in. *)
Lemma process_query_state_initial (self : Client) (query : string)
      (w w1 w2 : W) (s : Sess) (tools : list Tool) (c : ChatCompletion)
      (msg : ChatMessage) :
  session self = Some s ->
  list_tools s w = (inr tools, w1) ->
  chat_create (initial_request self [MsgSystem SYSTEM_PROMPT; MsgUser query]
                               (map available_tool tools)) w1
  = (inr c, w2) ->
  first_choice c = inr msg ->
  snd (process_query self query w)
  = snd (branch self msg (after_initial self query tools c msg w2)).
Proof.
  intros Hs Hl Hc Hm.
  rewrite process_query_state,
    (process_query_body_initial self query w Hs Hl Hc Hm).
  unfold bind.
  destruct (branch self msg (after_initial self query tools c msg w2))
    as [[a|r|e] st]; simpl; [|reflexivity|reflexivity].
  now rewrite return_joined_spec.
Qed.


(** ** What the answer keeps when a completion inside the loop fails *)

Lemma no_final_failure_app (tr d : list Event) :
  no_final_failure tr -> Forall not_chat d -> no_final_failure (tr ++ d).
Proof.
  intros Htr Hd req e Hin. apply in_app_iff in Hin. destruct Hin as [Hin|Hin].
  - eauto.
  - rewrite Forall_forall in Hd. apply Hd in Hin. contradiction.
Qed.

Lemma only_prints_not_chat (p : list Event) :
  only_prints p -> Forall not_chat p.
Proof.
  unfold only_prints. intros H. eapply Forall_impl; [|exact H].
  intros ev [line ->]. exact I.
Qed.

Lemma template_not_chat (d : list Event) :
  Forall template_event d -> Forall not_chat d.
Proof.
  intros H. eapply Forall_impl; [|exact H].
  intros [] Hev; simpl in *; auto.
Qed.

Lemma tool_work_kept_more (tr : list Event) (frags more : list string) :
  tool_work_kept tr frags -> tool_work_kept tr (frags ++ more).
Proof.
  intros H t a r Hin. destruct (H t a r Hin) as [Ha (text & Ht & Hin')].
  split; [apply in_app_iff; auto|].
  exists text. split; [assumption|apply in_app_iff; auto].
Qed.

Lemma resolve_tool_call_answer (self : Client) (tool_call : ToolCall)
      (st st' : St) (out : Outcome unit) :
  during_loop st ->
  resolve_tool_call self tool_call st = (out, st') ->
  iteration_post out st'.
Proof.
  intros (frags & Hft & Hkept & Hnff) H.
  apply resolve_tool_call_spec in H.
  destruct H as (st1 & (_ & _ & Hft1 & _ & p & Ht1 & Hp) & H).
  assert (Hnff1 : no_final_failure (trace st1)).
  { rewrite Ht1. apply no_final_failure_app;
      [assumption|now apply only_prints_not_chat]. }
  destruct H as [[[e ->] [_ Ht]]|(st2 & st3 & Hex & Htp & Hf)].
  { simpl. destruct Ht as [Ht|(t & a & r & Ht & _)]; rewrite Ht; auto.
    apply no_final_failure_app; [assumption|]. repeat constructor. }
  destruct Hex as (a & c & e & _ & _ & _ & Hft2 & Ht2).
  destruct Htp as (_ & _ & _ & msgs & delta & Hft3 & Ht3 & Hd & _).
  set (n := name (function tool_call)) in *.
  set (text := str_response (RespObj c e)) in *.
  set (frags3 := frags ++ [announcement n a; text] ++ assistant_lines msgs).
  assert (Hfrags3 : final_text st3 = map DStr frags3).
  { rewrite Hft3, Hft2, Hft1, Hft. unfold frags3.
    rewrite !map_app. simpl. now rewrite <- !app_assoc. }
  assert (Hex3 : executed (trace st3) = executed (trace st) ++ [(n, a, RespObj c e)]).
  { rewrite Ht3, Ht2, Ht1, !executed_app, (executed_prints Hp),
      (executed_template Hd). simpl. now rewrite !app_nil_r. }
  assert (Hkept3 : tool_work_kept (trace st3) frags3).
  { intros t' a' r' Hin. rewrite Hex3 in Hin. apply in_app_iff in Hin.
    destruct Hin as [Hin|[Hin|[]]].
    - exact (tool_work_kept_more _ Hkept t' a' r' Hin).
    - inversion Hin; subst. unfold frags3. split.
      + apply in_app_iff. right. left. reflexivity.
      + exists text. split; [reflexivity|].
        apply in_app_iff. right. right. left. reflexivity. }
  assert (Hnff3 : no_final_failure (trace st3)).
  { rewrite Ht3, Ht2. apply no_final_failure_app;
      [|now apply template_not_chat].
    apply no_final_failure_app; [assumption|]. repeat constructor. }
  destruct Hf as (_ & _ & [[-> (c' & t & Hft4 & Ht4)]|(e' & (r & Hft4 & Ht4 & Hr) & ->)]).
  - simpl. exists (frags3 ++ [("LLM final response: " ++ t)%string]).
    split; [|split].
    + rewrite Hft4, Hfrags3, map_app. reflexivity.
    + intros t' a' r' Hin. rewrite Ht4, executed_app in Hin. simpl in Hin.
      rewrite app_nil_r in Hin.
      exact (tool_work_kept_more _ Hkept3 t' a' r' Hin).
    + rewrite Ht4. intros req e0 Hin. apply in_app_iff in Hin.
      destruct Hin as [Hin|[Hin|[]]]; [eauto|discriminate].
  - rewrite Hft4, Hfrags3.
    change [DStr (final_error_text e')] with (map DStr [final_error_text e']).
    rewrite <- map_app, join_lines_map_DStr. simpl.
    exists frags3, e'. split; [reflexivity|]. split.
    + intros t' a' r' Hin. rewrite Ht4, executed_app in Hin. simpl in Hin.
      destruct r as [?|?]; simpl in Hin; rewrite app_nil_r in Hin;
        now apply Hkept3.
    + rewrite Ht4. intros req e0 Hin Hnone. apply in_app_iff in Hin.
      destruct Hin as [Hin|[Hin|[Hin|[]]]].
      * exfalso. eapply Hnff3; eauto.
      * inversion Hin; subst. now apply Hr.
      * discriminate.
Qed.

Lemma for_each_answer (self : Client) (l : list ToolCall) :
  forall (st st' : St) (out : Outcome unit),
    during_loop st ->
    for_each (resolve_tool_call self) l st = (out, st') ->
    iteration_post out st'.
Proof.
  induction l as [|tc l IH]; intros st st' out Hinv H; simpl in H.
  - inversion H; subst. exact Hinv.
  - unfold bind in H.
    destruct (resolve_tool_call self tc st) as [o st1] eqn:E.
    apply (resolve_tool_call_answer _ _ Hinv) in E.
    destruct o as [[]|r|e]; simpl in E.
    + eapply IH; eassumption.
    + inversion H; subst. exact E.
    + inversion H; subst. exact E.
Qed.

Lemma during_loop_after_initial (self : Client) (query : string)
      (tools : list Tool) (c : ChatCompletion) (msg : ChatMessage) (w : W) :
  during_loop (after_initial self query tools c msg w).
Proof.
  exists []. simpl. split; [reflexivity|]. split.
  - intros t a r [].
  - intros req e [Hin|[Hin|[]]]; discriminate.
Qed.


(** ** The direct answer *)

(** C7: when the initial completion carries no tool call, [process_query]
    returns the text of the assistant message, as it is. *)
Theorem direct_answer_returned_verbatim (self : Client) (query : string)
        (w w1 w2 : W) (s : Sess) (tools : list Tool) (c : ChatCompletion)
        (msg : ChatMessage) (text : string) :
  session self = Some s ->
  list_tools s w = (inr tools, w1) ->
  chat_create (initial_request self [MsgSystem SYSTEM_PROMPT; MsgUser query]
                               (map available_tool tools)) w1
  = (inr c, w2) ->
  first_choice c = inr msg ->
  tool_calls msg = None \/ tool_calls msg = Some [] ->
  content msg = Some text ->
  fst (process_query self query w) = inr text.
Proof.
  intros Hs Hl Hc Hm Htc Hcontent. unfold process_query.
  rewrite (process_query_body_initial self query w Hs Hl Hc Hm).
  unfold bind, branch.
  assert (E : match tool_calls msg with
              | Some (tc :: tcs) => for_each (resolve_tool_call self) (tc :: tcs)
              | _ => final_text_append (dyn_of_content (content msg))
              end = final_text_append (DStr text)).
  { rewrite Hcontent. destruct Htc as [-> | ->]; reflexivity. }
  rewrite E. unfold final_text_append. rewrite return_joined_spec.
  reflexivity.
Qed.

(** ** Template expansion *)

Lemma assistant_lines_from_assistant (msgs : list PromptMessage)
      (line : string) :
  In line (assistant_lines msgs) ->
  exists m, In m msgs
            /\ role m = "assistant"
            /\ line = ("LLM response: "
                       ++ str_template_message (role m) (pm_content m))%string.
Proof.
  unfold assistant_lines. intros H. apply in_map_iff in H.
  destruct H as (m & <- & Hin). apply filter_In in Hin.
  destruct Hin as [Hin Hrole]. apply String.eqb_eq in Hrole. eauto.
Qed.

(** C8: whatever the parsed arguments and whatever the collaborator does,
    the template phase ends normally, so the completion of this tool call
    and the following tool calls go on; it leaves the conversation as it
    was; what it appends to the answer are lines made from messages of role
    assistant of the rendered template, and nothing else.  A whole iteration
    adds to the conversation at most the tool message of its call. *)
Theorem template_expansion_confined (self : Client) (tool_call : ToolCall)
        (st : St) :
  (exists st' msgs,
     expand_template self st = (Normal tt, st')
     /\ messages st' = messages st
     /\ final_text st' = final_text st ++ map DStr (assistant_lines msgs)
     /\ (forall line,
           In line (assistant_lines msgs) ->
           exists m, In m msgs
                     /\ role m = "assistant"
                     /\ line = ("LLM response: "
                                ++ str_template_message (role m)
                                                        (pm_content m))%string)
     /\ (msgs = []
         \/ exists t a pr, In (EvGetPrompt t a (inr pr)) (trace st')
                          /\ pr_messages pr = Some msgs))
  /\ (messages (snd (resolve_tool_call self tool_call st)) = messages st
      \/ exists text,
           messages (snd (resolve_tool_call self tool_call st))
           = messages st ++ [MsgTool (id tool_call) (DStr text)]).
Proof.
  split.
  - destruct (expand_template self st) as [out st'] eqn:E.
    apply expand_template_spec in E.
    destruct E as (-> & Hm & _ & msgs & delta & Hft & Ht & _ & Hsrc).
    exists st', msgs. split; [reflexivity|]. split; [assumption|].
    split; [assumption|]. split; [apply assistant_lines_from_assistant|].
    destruct Hsrc as [->|(t & a & pr & Hin & Hpr)]; [now left|].
    right. exists t, a, pr. split; [|assumption].
    rewrite Ht. apply in_app_iff. now right.
  - destruct (resolve_tool_call self tool_call st) as [out st'] eqn:E.
    apply resolve_tool_call_messages in E. simpl.
    destruct E as [(Hm & _)|(text & x & Hm & _)]; eauto.
Qed.

(** ** A tool call that fails *)

Lemma bind_normal (A B : Type) (m : M A) (k : A -> M B) (st st1 : St)
      (a : A) :
  m st = (Normal a, st1) -> bind m k st = k a st1.
Proof. unfold bind. now intros ->. Qed.

Lemma bind_raised (A B : Type) (m : M A) (k : A -> M B) (st st1 : St)
      (e : Exn) :
  m st = (Raised e, st1) -> bind m k st = (Raised e, st1).
Proof. unfold bind. now intros ->. Qed.

Lemma parse_tool_args_ok (tool_call : ToolCall) (st : St) (args : PyVal) :
  json_loads (arguments (function tool_call)) = inr args ->
  parse_tool_args tool_call st
  = (Normal tt,
     mkState (world st) (messages st) (final_text st) (Some args) (trace st)).
Proof.
  intros H. unfold parse_tool_args, try_except, bind, lift_exn, set_tool_args,
              ret.
  now rewrite H.
Qed.

Lemma execute_tool_call_raises (self : Client) (tool_call : ToolCall)
      (st : St) (s : Sess) (args : PyVal) (e : Exn) (w' : W) :
  session self = Some s ->
  tool_args st = Some args ->
  call_tool s (name (function tool_call)) args (world st) = (inl e, w') ->
  execute_tool_call self tool_call st
  = (Raised e,
     mkState w' (messages st)
             (final_text st
              ++ [DStr (announcement (name (function tool_call)) args)])
             (Some args)
             (trace st
              ++ [EvCallTool (name (function tool_call)) args (inl e)])).
Proof.
  intros Hs Ha Hcall.
  unfold execute_tool_call, bind, get_tool_args, final_text_append,
    the_session, call, lift_exn, ret, raise.
  rewrite Ha, Hs. simpl. rewrite Hcall, Ha. reflexivity.
Qed.

Lemma execute_tool_call_result (self : Client) (tool_call : ToolCall)
      (st : St) (s : Sess) (args : PyVal) (c : list ContentItem) (err : bool)
      (w' : W) :
  session self = Some s ->
  tool_args st = Some args ->
  call_tool s (name (function tool_call)) args (world st)
  = (inr (RespObj c err), w') ->
  execute_tool_call self tool_call st
  = (Normal tt,
     mkState w'
             (messages st
              ++ [MsgTool (id tool_call) (DStr (str_response (RespObj c err)))])
             (final_text st
              ++ [DStr (announcement (name (function tool_call)) args);
                  DStr (str_response (RespObj c err))])
             (Some args)
             (trace st
              ++ [EvCallTool (name (function tool_call)) args
                             (inr (RespObj c err))])).
Proof.
  intros Hs Ha Hcall.
  unfold execute_tool_call, bind, get_tool_args, final_text_append,
    messages_append, the_session, call, lift_exn, ret, raise.
  rewrite Ha, Hs. simpl. rewrite Hcall, Ha. simpl.
  now rewrite <- app_assoc.
Qed.

(** One iteration on a tool call whose arguments parse: a result object
    that [call_tool] returns, also one that reports an error, becomes the
    result text of the call, and the tool message with the id of the call
    is appended; an exception that [call_tool] raises ends the iteration
    with that exception, with nothing appended to the conversation. *)
Theorem tool_failure_returned_or_raised (self : Client) (tool_call : ToolCall)
        (st : St) (s : Sess) (args : PyVal) :
  session self = Some s ->
  json_loads (arguments (function tool_call)) = inr args ->
  match call_tool s (name (function tool_call)) args (world st) with
  | (inr (RespObj c err), _) =>
      messages (snd (resolve_tool_call self tool_call st))
      = messages st
        ++ [MsgTool (id tool_call) (DStr (str_response (RespObj c err)))]
      /\ exists more,
          final_text (snd (resolve_tool_call self tool_call st))
          = final_text st
            ++ [DStr (announcement (name (function tool_call)) args);
                DStr (str_response (RespObj c err))]
            ++ more
  | (inl e, _) =>
      fst (resolve_tool_call self tool_call st) = Raised e
      /\ messages (snd (resolve_tool_call self tool_call st)) = messages st
  | _ => True
  end.
Proof.
  intros Hs Hargs.
  pose proof (parse_tool_args_ok tool_call st Hargs) as Hparse.
  destruct (call_tool s (name (function tool_call)) args (world st))
    as [[e|r] w'] eqn:Hcall.
  - unfold resolve_tool_call.
    rewrite (@bind_normal _ _ _ _ _ _ _ Hparse).
    rewrite (@bind_raised _ _ _ _ _ _ _
               (@execute_tool_call_raises self tool_call
                  (mkState (world st) (messages st) (final_text st)
                           (Some args) (trace st))
                  s args e w' Hs eq_refl Hcall)).
    split; reflexivity.
  - destruct r as [l|t|c err|d]; try exact I.
    unfold resolve_tool_call.
    rewrite (@bind_normal _ _ _ _ _ _ _ Hparse).
    rewrite (@bind_normal _ _ _ _ _ _ _
               (@execute_tool_call_result self tool_call
                  (mkState (world st) (messages st) (final_text st)
                           (Some args) (trace st))
                  s args c err w' Hs eq_refl Hcall)).
    unfold bind.
    match goal with
    | |- context [expand_template self ?st2] =>
        destruct (expand_template self st2) as [o3 st3] eqn:E3
    end.
    apply expand_template_spec in E3.
    destruct E3 as (-> & Hm3 & _ & msgs & delta & Hft3 & _).
    destruct (final_completion self st3) as [o4 st4] eqn:E4.
    apply final_completion_spec in E4.
    destruct E4 as (Hm4 & _ & Hf4). simpl in *.
    split; [now rewrite Hm4, Hm3|].
    destruct Hf4 as [[_ (c' & t & Hft4 & _)]|(e' & (r & Hft4 & _) & _)];
      rewrite Hft4, Hft3, <- !app_assoc; simpl;
      eexists; reflexivity.
Qed.

End Facts.

(** ** The client on the scripted scenarios *)

Import Scripted.

(** C1 on two tool calls: a completion without tools is requested after
    each tool call, so twice; the first one goes out when only [call_1] has
    its tool message, before the second tool is called.  Both carry the
    temperature 0.5 and no tools; the initial call carries the tools and no
    temperature. *)
Theorem completion_requested_after_each_tool_call :
  map kind (trace (snd (run two_calls)))
  = [KListTools; KInitialCompletion;
     KCallTool "get_workers_tool"; KCompletionWithoutTools;
     KCallTool "get_worker_details_tool"; KCompletionWithoutTools]
  /\ map (fun req => tool_call_ids (req_messages req))
         (final_requests (trace (snd (run two_calls))))
     = [["call_1"]; ["call_1"; "call_2"]]
  /\ map (fun req => (req_temperature req, req_tools req))
         (chat_requests (trace (snd (run two_calls))))
     = [(None, Some [workers_tool; worker_tool]);
        (Some (1 # 2)%Q, None); (Some (1 # 2)%Q, None)]
  /\ fst (run two_calls)
     = inr (join nl ["Calling tool get_workers_tool with args {}"; hello_text;
                     "LLM final response: one";
                     "Calling tool get_worker_details_tool with args {}";
                     hello_text; "LLM final response: two"]).
Proof. repeat split; vm_compute; reflexivity. Qed.

(** C2 on malformed arguments.  First of two calls malformed: nothing is
    skipped, [process_query] raises [UnboundLocalError] and the second tool
    is never called.  Second of two calls malformed: the second tool is
    called all the same, with the arguments of the first call. *)
Theorem malformed_arguments_not_skipped :
  (fst (run first_malformed)
   = inl (mkExn UnboundLocalError
            "cannot access local variable 'tool_args' where it is not associated with a value")
   /\ tools_called (trace (snd (run first_malformed))) = [])
  /\ (tools_called (trace (snd (run second_malformed)))
      = [("get_workers_tool", PDict []); ("get_worker_details_tool", PDict [])]
      /\ tool_call_ids (messages (snd (run second_malformed)))
         = ["call_1"; "call_2"]).
Proof. repeat split; vm_compute; reflexivity. Qed.

(** C3 on a result object whose content is one text item: the result text
    is the rendering of the whole object, not the text of the item. *)
Theorem result_text_is_the_rendered_object :
  tool_result_content hello = inr (DStr hello_text)
  /\ tool_result_content hello <> inr (DStr "hello")
  /\ fst (run final_fails)
     = inr (join nl ["Calling tool get_workers_tool with args {}"; hello_text;
                     "Error in final LLM call: Connection error."]).
Proof.
  split; [vm_compute; reflexivity|].
  split; [vm_compute; discriminate|vm_compute; reflexivity].
Qed.

(** C4 fails when [call_tool] raises: the exception leaves [process_query]
    and the conversation has no tool message. *)
Lemma tool_exception_leaves_process_query :
  map kind (trace (snd (run tool_raises)))
  = [KListTools; KInitialCompletion; KCallTool "get_workers_tool"]
  /\ fst (run tool_raises) = inl unreachable
  /\ tool_call_ids (messages (snd (run tool_raises))) = [].
Proof. repeat split; vm_compute; reflexivity. Qed.

(** ** The general properties at the scenarios *)

Lemma tool_failure_returned_or_raised_witness :
  session client = Some tt
  /\ json_loads (arguments (function (tc "call_1" "get_workers_tool" "{}")))
     = inr (PDict [])
  /\ messages (snd (resolve_tool_call client
                      (tc "call_1" "get_workers_tool" "{}")
                      (enter tool_reports_error)))
     = [MsgTool "call_1" (DStr (str_response failed))]
  /\ exists more,
      final_text (snd (resolve_tool_call client
                         (tc "call_1" "get_workers_tool" "{}")
                         (enter tool_reports_error)))
      = [DStr "Calling tool get_workers_tool with args {}";
         DStr (str_response failed)] ++ more.
Proof.
  split; [reflexivity|]. split; [reflexivity|].
  exact (@tool_failure_returned_or_raised _ _ _ scripted client
           (tc "call_1" "get_workers_tool" "{}") (enter tool_reports_error)
           tt (PDict []) eq_refl eq_refl).
Defined.



Lemma direct_answer_returned_verbatim_witness :
  tool_calls (mkChatMessage (Some "No workers found.") None) = None
  /\ fst (run direct_answer) = inr "No workers found.".
Proof.
  split; [reflexivity|].
  exact (@direct_answer_returned_verbatim _ _ _ scripted client "q"
           direct_answer direct_answer
           (mkScript [workers_tool; worker_tool] [] [] [] None)
           tt [workers_tool; worker_tool]
           (mkChatCompletion [mkChatMessage (Some "No workers found.") None])
           (mkChatMessage (Some "No workers found.") None)
           "No workers found."
           eq_refl eq_refl eq_refl eq_refl (or_introl eq_refl) eq_refl).
Defined.

Lemma cleanup_process_already_terminated_witness :
  aclose (exit_stack client) process_gone
  = (Some (mkExn ProcessLookupError EmptyString), process_gone)
  /\ raised (cleanup client process_gone) = None
  /\ events (cleanup client process_gone) = [].
Proof.
  split; [reflexivity|].
  exact (@cleanup_process_already_terminated _ _ _ scripted client
           process_gone process_gone (mkExn ProcessLookupError EmptyString)
           eq_refl eq_refl).
Defined.

Lemma connect_to_server_rejects_other_suffix_witness :
  endswith "get_worker_server.rb" ".py" = false
  /\ endswith "get_worker_server.rb" ".js" = false
  /\ raised (connect_to_server (mkClient None [] "gpt-3.5-turbo")
                               "get_worker_server.rb" direct_answer)
     = Some (mkExn ValueError "Server script must be a .py or .js file")
  /\ session (self_after (connect_to_server (mkClient None [] "gpt-3.5-turbo")
                                            "get_worker_server.rb"
                                            direct_answer))
     = None.
Proof.
  split; [reflexivity|]. split; [reflexivity|].
  pose proof (@connect_to_server_rejects_other_suffix _ _ _ scripted
                (mkClient None [] "gpt-3.5-turbo") "get_worker_server.rb"
                direct_answer eq_refl eq_refl eq_refl) as H.
  split; [apply H|apply H].
Defined.

(** * Further properties of the client *)

Section ClientEdges.

Context {W Sess Transport : Type} {C : Collaborators W Sess Transport}.
Local Open Scope py_scope.

Local Abbreviation Client := (@MCPClient Sess Transport).
Local Abbreviation St := (@State W).

#[local] Opaque String.append.

(** ** [process_query] before the loop *)

(** X1: without a session, [process_query] raises [AttributeError] at its
    first use of the session: no collaborator has been called. *)
Theorem process_query_without_session (self : Client) (query : string)
        (w : W) :
  session self = None ->
  fst (process_query self query w)
  = inl (mkExn AttributeError
           "'NoneType' object has no attribute 'list_tools'")
  /\ trace (snd (process_query self query w)) = []
  /\ world (snd (process_query self query w)) = w.
Proof.
  intros Hs.
  unfold process_query, process_query_body, enter, bind, set_messages,
    the_session, raise.
  rewrite Hs. simpl. repeat split.
Qed.

(** X2: when listing the tools fails, that exception leaves
    [process_query] and no completion is requested. *)
Theorem process_query_list_tools_fails (self : Client) (query : string)
        (w w1 : W) (s : Sess) (e : Exn) :
  session self = Some s ->
  list_tools s w = (inl e, w1) ->
  fst (process_query self query w) = inl e
  /\ trace (snd (process_query self query w)) = [EvListTools].
Proof.
  intros Hs Hl.
  unfold process_query, process_query_body, enter, bind, set_messages,
    the_session, call, lift_exn, ret, raise.
  rewrite Hs. simpl. rewrite Hl. simpl. split; reflexivity.
Qed.

(** X3: when the initial completion raises [e], the handler only prints
    it; the next statement reads [choices] off the result of [list_tools],
    so [process_query] raises [AttributeError], not [e], and no tool is
    called. *)
Theorem process_query_initial_completion_fails (self : Client)
        (query : string) (w w1 w2 : W) (s : Sess) (tools : list Tool)
        (e : Exn) :
  session self = Some s ->
  list_tools s w = (inr tools, w1) ->
  chat_create (initial_request self [MsgSystem SYSTEM_PROMPT; MsgUser query]
                               (map available_tool tools)) w1
  = (inl e, w2) ->
  fst (process_query self query w)
  = inl (mkExn AttributeError
           "'ListToolsResult' object has no attribute 'choices'")
  /\ trace (snd (process_query self query w))
     = [EvListTools;
        EvChatCreate
          (initial_request self [MsgSystem SYSTEM_PROMPT; MsgUser query]
                           (map available_tool tools))
          (inl e);
        EvPrint ("Error in LLM call: " ++ exn_str e)].
Proof.
  intros Hs Hl Hc.
  unfold process_query, process_query_body, enter, bind, set_messages,
    the_session, call, get_messages, try_except, lift_exn, print, log,
    choices_0, ret, raise.
  rewrite Hs. simpl. rewrite Hl. simpl. rewrite Hc. simpl.
  split; reflexivity.
Qed.

(** X4: a direct answer whose content is [None] is not an empty answer:
    joining the fragments raises [TypeError]. *)
Theorem direct_answer_without_content (self : Client) (query : string)
        (w w1 w2 : W) (s : Sess) (tools : list Tool) (c : ChatCompletion)
        (msg : ChatMessage) :
  session self = Some s ->
  list_tools s w = (inr tools, w1) ->
  chat_create (initial_request self [MsgSystem SYSTEM_PROMPT; MsgUser query]
                               (map available_tool tools)) w1
  = (inr c, w2) ->
  first_choice c = inr msg ->
  tool_calls msg = None \/ tool_calls msg = Some [] ->
  content msg = None ->
  exists e,
    fst (process_query self query w) = inl e /\ exn_class e = TypeError.
Proof.
  intros Hs Hl Hc Hm Htc Hcontent. unfold process_query.
  rewrite (process_query_body_initial self query w Hs Hl Hc Hm).
  unfold bind, branch.
  assert (E : match tool_calls msg with
              | Some (tc :: tcs) => for_each (resolve_tool_call self) (tc :: tcs)
              | _ => final_text_append (dyn_of_content (content msg))
              end = final_text_append DNone).
  { rewrite Hcontent. destruct Htc as [-> | ->]; reflexivity. }
  rewrite E. unfold final_text_append. rewrite return_joined_spec.
  simpl. eexists. split; reflexivity.
Qed.

(** ** Completions and tool calls in step *)

Lemma final_requests_app (a b : list Event) :
  final_requests (a ++ b) = final_requests a ++ final_requests b.
Proof.
  induction a as [|ev a IH]; simpl; [reflexivity|].
  destruct ev; simpl; try assumption.
  destruct (req_tools req); simpl; now rewrite IH.
Qed.

Lemma final_requests_not_chat (d : list Event) :
  Forall not_chat d -> final_requests d = [].
Proof.
  induction 1 as [|ev d Hev _ IH]; simpl; auto.
  destruct ev; simpl in *; auto; contradiction.
Qed.

(** Where [process_query] stands when it ends: it raised before the branch
    on [tool_calls], having requested and executed nothing, or it ended
    where the branch ended. *)
Lemma process_query_reaches_branch (self : Client) (query : string) (w : W) :
  (final_requests (trace (snd (process_query self query w))) = []
   /\ executed (trace (snd (process_query self query w))) = [])
  \/ exists tools c msg w2,
       snd (process_query self query w)
       = snd (branch self msg (after_initial self query tools c msg w2)).
Proof.
  destruct (session self) as [s|] eqn:Hs.
  2:{ left. rewrite process_query_state.
      unfold process_query_body, enter, bind, set_messages, the_session, raise.
      rewrite Hs. simpl. auto. }
  destruct (list_tools s w) as [[e1|tools] w1] eqn:Hl.
  { left. rewrite process_query_state.
    unfold process_query_body, enter, bind, set_messages, the_session, call,
      lift_exn, ret, raise.
    rewrite Hs. simpl. rewrite Hl. simpl. auto. }
  destruct (chat_create
              (initial_request self [MsgSystem SYSTEM_PROMPT; MsgUser query]
                               (map available_tool tools)) w1)
    as [[e2|c] w2] eqn:Hc.
  { left. rewrite process_query_state.
    unfold process_query_body, enter, bind, set_messages, the_session, call,
      get_messages, try_except, lift_exn, print, log, choices_0, ret, raise.
    rewrite Hs. simpl. rewrite Hl. simpl. rewrite Hc. simpl. auto. }
  destruct (first_choice c) as [e3|msg] eqn:Hm.
  { left. rewrite process_query_state.
    unfold process_query_body, enter, bind, set_messages, the_session, call,
      get_messages, try_except, lift_exn, print, log, choices_0, ret, raise.
    rewrite Hs. simpl. rewrite Hl. simpl. rewrite Hc. simpl. rewrite Hm.
    simpl. auto. }
  right. exists tools, c, msg, w2.
  apply (process_query_state_initial self query w Hs Hl Hc Hm).
Qed.

(** One iteration: nothing executed, nothing requested, nothing appended,
    and then the loop does not go on; or one tool executed, its tool message
    appended, and one completion requested on the conversation with that
    message. *)
Lemma resolve_tool_call_step (self : Client) (tool_call : ToolCall)
      (st st' : St) (out : Outcome unit) :
  resolve_tool_call self tool_call st = (out, st') ->
  (messages st' = messages st
   /\ executed (trace st') = executed (trace st)
   /\ final_requests (trace st') = final_requests (trace st)
   /\ out <> Normal tt)
  \/ (exists text x,
        messages st' = messages st ++ [MsgTool (id tool_call) (DStr text)]
        /\ executed (trace st') = executed (trace st) ++ [x]
        /\ final_requests (trace st')
           = final_requests (trace st) ++ [final_request self (messages st')]).
Proof.
  intros H. pose proof (resolve_tool_call_messages _ _ _ H) as Hmsg.
  apply resolve_tool_call_spec in H.
  destruct H as (st1 & (_ & Hm1 & _ & _ & p & Ht1 & Hp) & H).
  assert (Hfr1 : final_requests (trace st1) = final_requests (trace st)).
  { rewrite Ht1, final_requests_app,
      (final_requests_not_chat (only_prints_not_chat Hp)).
    now rewrite app_nil_r. }
  destruct H as [[[e ->] [Hm Ht]]|(st2 & st3 & Hex & Htp & Hf)].
  - left. destruct Hmsg as [(Hm' & Hx & Ho)|(text & x & Hm' & _)].
    + repeat split; auto.
      destruct Ht as [Ht|(t & a & r & Ht & Hr)]; rewrite Ht; auto.
      rewrite final_requests_app. simpl. now rewrite app_nil_r.
    + exfalso. rewrite Hm, Hm1 in Hm'.
      apply (f_equal (@length Message)) in Hm'. rewrite length_app in Hm'.
      simpl in Hm'. lia.
  - right. destruct Hmsg as [(Hm' & _ & _)|(text & x & Hm' & Hx)].
    + exfalso.
      destruct Hex as (a & c & e & _ & _ & Hm2 & _).
      destruct Htp as (_ & Hm3 & _). destruct Hf as (Hm4 & _).
      rewrite Hm4, Hm3, Hm2, Hm1 in Hm'.
      apply (f_equal (@length Message)) in Hm'. rewrite length_app in Hm'.
      simpl in Hm'. lia.
    + exists text, x. split; [assumption|]. split; [assumption|].
      destruct Hex as (a & c & e & _ & _ & _ & _ & Ht2).
      destruct Htp as (_ & Hm3 & _ & msgs & delta & _ & Ht3 & Hd & _).
      destruct Hf as (Hm4 & _ & Hf).
      assert (Hfr3 : final_requests (trace st3) = final_requests (trace st)).
      { rewrite Ht3, Ht2, !final_requests_app,
          (final_requests_not_chat (template_not_chat Hd)), Hfr1.
        simpl. now rewrite !app_nil_r. }
      rewrite Hm4.
      destruct Hf as [[_ (c' & t & _ & Ht4)]|(e' & (r & _ & Ht4 & _) & _)];
        rewrite Ht4, final_requests_app, Hfr3; reflexivity.
Qed.

(** The loop: as many completions as tool messages, the k-th of them on the
    conversation up to the k-th tool message; and as many tools executed. *)
Lemma for_each_step (self : Client) (l : list ToolCall) :
  forall (st st' : St) (out : Outcome unit),
    for_each (resolve_tool_call self) l st = (out, st') ->
    exists new,
      messages st' = messages st ++ new
      /\ final_requests (trace st')
         = final_requests (trace st)
           ++ map (fun k => final_request self (messages st ++ firstn k new))
                  (seq 1 (length new))
      /\ length (executed (trace st'))
         = length (executed (trace st)) + length new.
Proof.
  induction l as [|tc l IH]; intros st st' out H; simpl in H.
  - inversion H; subst. exists []. simpl.
    rewrite !app_nil_r, Nat.add_0_r. auto.
  - unfold bind in H.
    destruct (resolve_tool_call self tc st) as [o st1] eqn:E.
    apply resolve_tool_call_step in E.
    destruct E as [(Hm & Hx & Hfr & Ho)|(text & x & Hm & Hx & Hfr)].
    + assert (st' = st1) as ->.
      { destruct o as [[]| |]; [congruence| |]; now inversion H. }
      exists []. simpl. rewrite !app_nil_r, Nat.add_0_r, Hm, Hx, Hfr. auto.
    + set (m := MsgTool (id tc) (DStr text)) in *.
      assert (Hone : exists new,
                 messages st1 = messages st ++ new
                 /\ final_requests (trace st1)
                    = final_requests (trace st)
                      ++ map (fun k => final_request self
                                         (messages st ++ firstn k new))
                             (seq 1 (length new))
                 /\ length (executed (trace st1))
                    = length (executed (trace st)) + length new).
      { exists [m]. simpl. rewrite Hfr, Hx, Hm, length_app. simpl. auto. }
      destruct o as [[]|r|e]; [|now inversion H; subst|now inversion H; subst].
      apply IH in H. destruct H as (new & Hm' & Hfr' & Hx').
      exists (m :: new). rewrite Hm', Hm, <- app_assoc. simpl.
      split; [reflexivity|]. split.
      * rewrite Hfr', Hfr, <- app_assoc. simpl. f_equal. rewrite Hm.
        f_equal. rewrite <- (seq_shift (length new) 1), map_map.
        apply map_ext. intros k.
        simpl. now rewrite <- app_assoc.
      * rewrite Hx', Hx, length_app. simpl. lia.
Qed.

(** X5: in every run, the completions requested without tools are as many
    as the tool calls that came back with a result: one completion per
    executed tool call, not one per query. *)
Theorem one_completion_per_executed_tool_call (self : Client)
        (query : string) (w : W) :
  length (final_requests (trace (snd (process_query self query w))))
  = length (executed (trace (snd (process_query self query w)))).
Proof.
  destruct (process_query_reaches_branch self query w)
    as [[-> ->]|(tools & c & msg & w2 & ->)]; [reflexivity|].
  unfold branch.
  destruct (tool_calls msg) as [[|tc tcs]|]; try reflexivity.
  destruct (for_each (resolve_tool_call self) (tc :: tcs)
              (after_initial self query tools c msg w2)) as [out st] eqn:E.
  apply for_each_step in E. destruct E as (new & _ & Hfr & Hx).
  simpl snd. rewrite Hfr, Hx. simpl. now rewrite length_map, length_seq.
Qed.

(** X6: the k-th completion requested without tools was sent the
    conversation as it stood after the k-th tool message: the system, user
    and assistant messages and the first k tool messages, with the model of
    the client, temperature 0.5 and no tools. *)
Theorem completion_sees_conversation_so_far (self : Client) (query : string)
        (w : W) :
  final_requests (trace (snd (process_query self query w)))
  = map (fun k =>
           mkChatRequest (model self) 4096 (Some (1 # 2)%Q)
             (firstn (3 + k) (messages (snd (process_query self query w))))
             None)
        (seq 1 (length (final_requests
                          (trace (snd (process_query self query w)))))).
Proof.
  destruct (process_query_reaches_branch self query w)
    as [[-> _]|(tools & c & msg & w2 & ->)]; [reflexivity|].
  unfold branch.
  destruct (tool_calls msg) as [[|tc tcs]|]; try reflexivity.
  destruct (for_each (resolve_tool_call self) (tc :: tcs)
              (after_initial self query tools c msg w2)) as [out st] eqn:E.
  apply for_each_step in E. destruct E as (new & Hm & Hfr & _).
  simpl snd. rewrite Hfr, Hm. simpl.
  rewrite length_map, length_seq. reflexivity.
Qed.

(** ** Arguments that do not parse *)

Lemma parse_tool_args_fails (tool_call : ToolCall) (st : St) (e : Exn) :
  json_loads (arguments (function tool_call)) = inl e ->
  parse_tool_args tool_call st
  = (Normal tt,
     mkState (world st) (messages st) (final_text st) (tool_args st)
             (trace st ++ [EvPrint ("Error parsing tool args: " ++ exn_str e)])).
Proof.
  intros H. unfold parse_tool_args, try_except, bind, lift_exn, print, log,
              raise.
  now rewrite H.
Qed.

Lemma execute_tool_call_calls (self : Client) (tool_call : ToolCall)
      (st : St) (s : Sess) (a : PyVal) :
  session self = Some s ->
  tool_args st = Some a ->
  trace (snd (execute_tool_call self tool_call st))
  = trace st
    ++ [EvCallTool (name (function tool_call)) a
          (fst (call_tool s (name (function tool_call)) a (world st)))].
Proof.
  intros Hs Ha.
  unfold execute_tool_call, bind, get_tool_args, final_text_append,
    messages_append, the_session, call, lift_exn, ret, raise.
  rewrite Ha, Hs. simpl.
  destruct (call_tool s (name (function tool_call)) a (world st))
    as [[e|r] w']; simpl; [reflexivity|].
  destruct r; reflexivity.
Qed.

(** X7: when the arguments of a tool call do not parse, the iteration is
    not skipped.  If no earlier call bound [tool_args], it ends in
    [UnboundLocalError] before any tool is called; otherwise the tool of
    this call is called with the arguments left by the earlier call. *)
Theorem unparsed_arguments_reuse_previous (self : Client)
        (tool_call : ToolCall) (st : St) (s : Sess) (e : Exn) :
  session self = Some s ->
  json_loads (arguments (function tool_call)) = inl e ->
  match tool_args st with
  | None =>
      exists e',
        fst (resolve_tool_call self tool_call st) = Raised e'
        /\ exn_class e' = UnboundLocalError
        /\ trace (snd (resolve_tool_call self tool_call st))
           = trace st ++ [EvPrint ("Error parsing tool args: " ++ exn_str e)]
  | Some a =>
      exists rest,
        trace (snd (resolve_tool_call self tool_call st))
        = trace st
          ++ [EvPrint ("Error parsing tool args: " ++ exn_str e);
              EvCallTool (name (function tool_call)) a
                (fst (call_tool s (name (function tool_call)) a (world st)))]
          ++ rest
  end.
Proof.
  intros Hs Hparse.
  pose proof (parse_tool_args_fails tool_call st Hparse) as Hp.
  unfold resolve_tool_call. rewrite (@bind_normal _ _ _ _ _ _ _ _ Hp).
  destruct (tool_args st) as [a|] eqn:Ha.
  - set (st1 := mkState (world st) (messages st) (final_text st) (Some a)
                        (trace st ++ [EvPrint ("Error parsing tool args: "
                                               ++ exn_str e)])).
    pose proof (@execute_tool_call_calls self tool_call st1 s a Hs eq_refl)
      as Hcall.
    unfold bind at 1.
    destruct (execute_tool_call self tool_call st1) as [o2 st2] eqn:E2.
    simpl in Hcall.
    destruct o2 as [[]|r|e2].
    + unfold bind.
      destruct (expand_template self st2) as [o3 st3] eqn:E3.
      apply expand_template_spec in E3.
      destruct E3 as (-> & _ & _ & msgs & delta & _ & Ht3 & _).
      destruct (final_completion self st3) as [o4 st4] eqn:E4.
      apply final_completion_spec in E4. destruct E4 as (_ & _ & Hf).
      simpl.
      destruct Hf as [[_ (c' & t & _ & Ht4)]|(e' & (r & _ & Ht4 & _) & _)];
        rewrite Ht4, Ht3, Hcall, <- !app_assoc; simpl;
        eexists; reflexivity.
    + simpl. rewrite Hcall, <- app_assoc. simpl. exists []. reflexivity.
    + simpl. rewrite Hcall, <- app_assoc. simpl. exists []. reflexivity.
  - unfold bind, execute_tool_call, bind, get_tool_args. simpl.
    eexists. repeat split.
Qed.

(** ** Template requests *)

Lemma expand_template_skips (self : Client) (st : St) (a : PyVal) :
  tool_args st = Some a ->
  (forall d, a = PDict d ->
             dict_get "prompt_template" d = None
             \/ dict_get "template_args" d = None) ->
  expand_template self st = (Normal tt, st).
Proof.
  intros Ha Hkeys.
  unfold expand_template, try_except, bind, get_tool_args, ret.
  rewrite Ha. destruct a as [| | | |l|d]; try reflexivity.
  destruct (Hkeys d eq_refl) as [-> | H2]; [reflexivity|].
  rewrite H2. now destruct (dict_get "prompt_template" d).
Qed.

(** X8: unless the parsed arguments are a dict with both keys
    [prompt_template] and [template_args], the template phase does nothing:
    no prompt is fetched and the state is as it was. *)
Theorem template_needs_both_keys (self : Client) (st : St) (a : PyVal) :
  tool_args st = Some a ->
  (forall d, a = PDict d ->
             dict_get "prompt_template" d = None
             \/ dict_get "template_args" d = None) ->
  expand_template self st = (Normal tt, st).
Proof.
  intros Ha Hkeys.
  unfold expand_template, try_except, bind, get_tool_args, ret.
  rewrite Ha. destruct a as [| | | |l|d]; try reflexivity.
  destruct (Hkeys d eq_refl) as [Hpt|Hta].
  - now rewrite Hpt.
  - rewrite Hta. now destruct (dict_get "prompt_template" d).
Qed.

(** X9: a template request fetches the prompt once, with every template
    argument rendered by [str] under its key; and when the rendered
    template has no attribute [message], nothing of it reaches the answer,
    whatever messages it holds. *)
Theorem template_without_message_attribute (self : Client) (st : St)
        (s : Sess) (d targs : list (string * PyVal)) (pt : PyVal)
        (pr : PromptResult) (w' : W) :
  session self = Some s ->
  tool_args st = Some (PDict d) ->
  dict_get "prompt_template" d = Some pt ->
  dict_get "template_args" d = Some (PDict targs) ->
  get_prompt s pt (map (fun kv => (fst kv, py_str (snd kv))) targs) (world st)
  = (inr pr, w') ->
  pr_has_message pr = false ->
  expand_template self st
  = (Normal tt,
     mkState w' (messages st) (final_text st) (tool_args st)
             (trace st
              ++ [EvGetPrompt pt
                    (map (fun kv => (fst kv, py_str (snd kv))) targs)
                    (inr pr)])).
Proof.
  intros Hs Ha Hpt Hta Hget Hattr.
  unfold expand_template, try_except, bind, get_tool_args, lift_exn,
    the_session, call, ret, raise.
  rewrite Ha, Hpt, Hta. simpl. rewrite Hs. simpl. rewrite Hget. simpl.
  rewrite Hattr, Ha. now destruct (pr_messages pr).
Qed.

(** ** One tool call from end to end *)

Lemma final_completion_ok (self : Client) (st : St) (c : ChatCompletion)
      (msg : ChatMessage) (t : string) (w' : W) :
  chat_create (final_request self (messages st)) (world st) = (inr c, w') ->
  first_choice c = inr msg ->
  content msg = Some t ->
  final_completion self st
  = (Normal tt,
     mkState w' (messages st)
             (final_text st ++ [DStr ("LLM final response: " ++ t)])
             (tool_args st)
             (trace st
              ++ [EvChatCreate (final_request self (messages st)) (inr c)])).
Proof.
  intros Hc Hm Ht.
  unfold final_completion, try_except, bind, get_messages, call, lift_exn,
    final_text_append, ret, raise.
  rewrite Hc. simpl. rewrite Hm. simpl. rewrite Ht. reflexivity.
Qed.

(** X10: a query answered through one tool call, with arguments that parse
    and ask for no template, a tool that returns a result and a completion
    that answers: the string returned is three lines, the announcement of
    the call, the rendering of the result, and the closing text after
    [LLM final response: ]; the completion was sent the conversation
    ending in the tool message of the call. *)
Theorem one_tool_call_answer (self : Client) (query : string)
        (w w1 w2 w3 w4 : W) (s : Sess) (tools : list Tool)
        (c c2 : ChatCompletion) (msg msg2 : ChatMessage) (tc : ToolCall)
        (args : PyVal) (cnt : list ContentItem) (err : bool) (t : string) :
  session self = Some s ->
  list_tools s w = (inr tools, w1) ->
  chat_create (initial_request self [MsgSystem SYSTEM_PROMPT; MsgUser query]
                               (map available_tool tools)) w1
  = (inr c, w2) ->
  first_choice c = inr msg ->
  tool_calls msg = Some [tc] ->
  json_loads (arguments (function tc)) = inr args ->
  (forall d, args = PDict d ->
             dict_get "prompt_template" d = None
             \/ dict_get "template_args" d = None) ->
  call_tool s (name (function tc)) args w2 = (inr (RespObj cnt err), w3) ->
  chat_create
    (final_request self
       [MsgSystem SYSTEM_PROMPT; MsgUser query; MsgAssistant msg;
        MsgTool (id tc) (DStr (str_response (RespObj cnt err)))]) w3
  = (inr c2, w4) ->
  first_choice c2 = inr msg2 ->
  content msg2 = Some t ->
  fst (process_query self query w)
  = inr (join nl [announcement (name (function tc)) args;
                  str_response (RespObj cnt err);
                  ("LLM final response: " ++ t)%string]).
Proof.
  intros Hs Hl Hc Hm Htc Hargs Hkeys Hcall Hc2 Hm2 Ht.
  unfold process_query.
  rewrite (process_query_body_initial self query w Hs Hl Hc Hm).
  set (st0 := after_initial self query tools c msg w2).
  set (text := str_response (RespObj cnt err)) in *.
  set (st1 := mkState w2 (messages st0) [] (Some args) (trace st0)).
  set (st2 := mkState w3
                (messages st0 ++ [MsgTool (id tc) (DStr text)])
                [DStr (announcement (name (function tc)) args); DStr text]
                (Some args)
                (trace st0
                 ++ [EvCallTool (name (function tc)) args
                                (inr (RespObj cnt err))])).
  assert (H1 : parse_tool_args tc st0 = (Normal tt, st1))
    by exact (parse_tool_args_ok tc st0 Hargs).
  assert (H2 : execute_tool_call self tc st1 = (Normal tt, st2))
    by exact (@execute_tool_call_result _ _ _ _ self tc st1 s args cnt err w3
                Hs eq_refl Hcall).
  assert (H3 : expand_template self st2 = (Normal tt, st2))
    by exact (@expand_template_skips self st2 args eq_refl Hkeys).
  pose proof (@final_completion_ok self st2 c2 msg2 t w4 Hc2 Hm2 Ht) as H4.
  assert (Hiter : for_each (resolve_tool_call self) [tc] st0
                  = (Normal tt,
                     mkState w4 (messages st2)
                       (final_text st2 ++ [DStr ("LLM final response: " ++ t)])
                       (tool_args st2)
                       (trace st2
                        ++ [EvChatCreate (final_request self (messages st2))
                                         (inr c2)]))).
  { assert (Hres : resolve_tool_call self tc st0
                   = final_completion self st2).
    { unfold resolve_tool_call.
      rewrite (@bind_normal _ _ _ _ _ _ _ _ H1).
      rewrite (@bind_normal _ _ _ _ _ _ _ _ H2).
      now rewrite (@bind_normal _ _ _ _ _ _ _ _ H3). }
    rewrite H4 in Hres. simpl for_each.
    now rewrite (@bind_normal _ _ _ _ _ _ _ _ Hres). }
  unfold branch. rewrite Htc.
  rewrite (@bind_normal _ _ _ _ _ _ _ _ Hiter).
  rewrite return_joined_spec. reflexivity.
Qed.

(** ** [cleanup] and [connect_to_server] *)

(** X11: [cleanup] never lets an [Exception] out.  For any exception
    other than [ProcessLookupError] it prints one line.  It does not touch
    the session field: a client that was connected still holds its session
    after [cleanup]. *)
Theorem cleanup_swallows_exceptions (self : Client) (w : W) :
  raised (cleanup self w) = None
  /\ session (self_after (cleanup self w)) = session self
  /\ events (cleanup self w)
     = match fst (aclose (exit_stack self) w) with
       | Some e =>
           if is_ProcessLookupError e then []
           else [EvPrint ("Error during cleanup: " ++ exn_str e)]
       | None => []
       end.
Proof.
  unfold cleanup.
  destruct (aclose (exit_stack self) w) as [[e|] w']; simpl;
    [destruct (is_ProcessLookupError e)|]; repeat split.
Qed.

Lemma connect_to_server_starts (self : Client)
      (server_script_path : string) (w : W) :
  endswith server_script_path ".py" = true
  \/ endswith server_script_path ".js" = true ->
  exists rest,
    events (connect_to_server self server_script_path w)
    = EvStdioClient
        (if endswith server_script_path ".py" then "python" else "node")
        [server_script_path]
      :: rest.
Proof.
  intros H. unfold connect_to_server.
  assert (Hok : negb (endswith server_script_path ".py"
                      || endswith server_script_path ".js") = false).
  { destruct H as [-> | ->]; [reflexivity|].
    now rewrite orb_true_r. }
  rewrite Hok.
  destruct (stdio_client _ _ w) as [[e|t] w1]; simpl; [eauto|].
  destruct (client_session t w1) as [[e|s] w2]; simpl; [eauto|].
  destruct (initialize s w2) as [[e|u] w3]; simpl; [eauto|].
  destruct (list_tools s w3) as [[e|ts] w4]; simpl; eauto.
Qed.

(** X12: a path ending in [.py] is started with [python], a path ending
    in [.js] with [node], and the path is the only argument. *)
Theorem connect_to_server_command (self : Client)
        (server_script_path : string) (w : W) :
  endswith server_script_path ".py" = true
  \/ endswith server_script_path ".js" = true ->
  exists rest,
    events (connect_to_server self server_script_path w)
    = EvStdioClient
        (if endswith server_script_path ".py" then "python" else "node")
        [server_script_path]
      :: rest.
Proof.
  intros Hsuffix. unfold connect_to_server.
  destruct (endswith server_script_path ".py") eqn:Hpy; simpl.
  - destruct (stdio_client _ _ w) as [[e|t] w1]; simpl; [eauto|].
    destruct (client_session t w1) as [[e|s] w2]; simpl; [eauto|].
    destruct (initialize s w2) as [[e|u] w3]; simpl; [eauto|].
    destruct (list_tools s w3) as [[e|ts] w4]; simpl; eauto.
  - destruct Hsuffix as [Hfalse|Hjs]; [discriminate|]. rewrite Hjs. simpl.
    destruct (stdio_client _ _ w) as [[e|t] w1]; simpl; [eauto|].
    destruct (client_session t w1) as [[e|s] w2]; simpl; [eauto|].
    destruct (initialize s w2) as [[e|u] w3]; simpl; [eauto|].
    destruct (list_tools s w3) as [[e|ts] w4]; simpl; eauto.
Qed.

(** X13: once the transport and the session have been entered,
    [connect_to_server] has set the session field to that session and both
    lie on the exit stack, the session above its transport, above what was
    there: this holds when it returns and also when it raises afterwards,
    which it does exactly when [initialize] or, after it, [list_tools]
    raises, with that exception.  So [cleanup] closes what was opened. *)
Theorem connect_to_server_registers_session (self : Client)
        (server_script_path : string) (w w1 w2 : W) (t : Transport)
        (s : Sess) :
  endswith server_script_path ".py" = true
  \/ endswith server_script_path ".js" = true ->
  stdio_client
    (if endswith server_script_path ".py" then "python" else "node")
    [server_script_path] w
  = (inr t, w1) ->
  client_session t w1 = (inr s, w2) ->
  session (self_after (connect_to_server self server_script_path w)) = Some s
  /\ exit_stack (self_after (connect_to_server self server_script_path w))
     = ResSession Transport s :: ResTransport Sess t :: exit_stack self
  /\ raised (connect_to_server self server_script_path w)
     = match initialize s w2 with
       | (inl e, _) => Some e
       | (inr _, w3) =>
           match list_tools s w3 with
           | (inl e, _) => Some e
           | (inr _, _) => None
           end
       end.
Proof.
  intros Hsuffix Hstdio Hsession. unfold connect_to_server.
  assert (Hok : negb (endswith server_script_path ".py"
                      || endswith server_script_path ".js") = false).
  { destruct Hsuffix as [-> | ->]; [reflexivity|].
    now rewrite orb_true_r. }
  rewrite Hok, Hstdio, Hsession.
  destruct (initialize s w2) as [[e|u] w3]; simpl; [auto|].
  destruct (list_tools s w3) as [[e|ts] w4]; simpl; auto.
Qed.

End ClientEdges.

(** * Properties of the console client *)

Section ConsoleFacts.

Context {W Sess Transport : Type} {C : Collaborators W Sess Transport}.

Local Abbreviation Client := (@MCPClient Sess Transport).

Example quit_any_case : is_quit "  QuIt " = true.
Proof. reflexivity. Qed.

Example quit_not_a_prefix : is_quit "quit now" = false.
Proof. reflexivity. Qed.

Example quit_after_no_break_space :
  is_quit (String (ascii_of_nat 160) "quit") = true
  /\ is_quit (String (ascii_of_nat 133) "quit") = true.
Proof. split; reflexivity. Qed.

Lemma chat_loop_from_app (self : Client) (pre post : list (Exn + string)) :
  forall (w : W) (evs : list Event) (asked : list string),
    chat_loop_from self (pre ++ post) w evs asked
    = match loop_end (chat_loop_from self pre w evs asked) with
      | Quit => chat_loop_from self pre w evs asked
      | AwaitingInput =>
          chat_loop_from self post
            (loop_world (chat_loop_from self pre w evs asked))
            (loop_events (chat_loop_from self pre w evs asked))
            (queries (chat_loop_from self pre w evs asked))
      end.
Proof.
  induction pre as [|i pre IH]; intros w evs asked; simpl; [reflexivity|].
  destruct i as [e|line]; [apply IH|].
  destruct (String.eqb (lower (strip line)) "quit"); [reflexivity|].
  destruct (process_query self (strip line) w) as [[e|r] st]; apply IH.
Qed.

(** X14: for ASCII input, a line that reads [quit], in any case and with
    white space around it, ends the chat loop: no query is made of it, and
    nothing that comes after it is read. *)
Theorem quit_ends_chat_loop (self : Client) (pre post : list (Exn + string))
        (line : string) (w : W) :
  ascii_input (pre ++ [inr line]) ->
  is_quit line = true ->
  loop_end (chat_loop self pre w) = AwaitingInput ->
  chat_loop self (pre ++ inr line :: post) w
  = mkLoop Quit (loop_world (chat_loop self pre w))
           (loop_events (chat_loop self pre w))
           (queries (chat_loop self pre w)).
Proof.
  unfold chat_loop, is_quit. intros _ Hq Hpre.
  rewrite chat_loop_from_app, Hpre. simpl. now rewrite Hq.
Qed.

Lemma chat_loop_from_goes_on (self : Client) (inputs : list (Exn + string)) :
  (forall line, In (inr line) inputs -> is_quit line = false) ->
  forall (w : W) (evs : list Event) (asked : list string),
    loop_end (chat_loop_from self inputs w evs asked) = AwaitingInput
    /\ queries (chat_loop_from self inputs w evs asked)
       = asked
         ++ flat_map (fun i => match i with
                               | inr line => [strip line]
                               | inl _ => []
                               end) inputs.
Proof.
  induction inputs as [|i inputs IH]; intros Hnq w evs asked; simpl.
  - now rewrite app_nil_r.
  - assert (Hrest : forall line, In (inr line) inputs -> is_quit line = false)
      by (intros; apply Hnq; now right).
    destruct i as [e|line]; [now apply IH|].
    assert (Hline : String.eqb (lower (strip line)) "quit" = false)
      by (apply Hnq; now left).
    rewrite Hline.
    destruct (process_query self (strip line) w) as [[e|r] st];
      match goal with
      | |- context [chat_loop_from self inputs ?w' ?e' ?a'] =>
          destruct (IH Hrest w' e' a') as [H1 H2]
      end;
      rewrite H1, H2, <- app_assoc; auto.
Qed.

(** X15: for ASCII input, only [quit] ends the chat loop.  Whatever
    [Exception] the call of [input] or [process_query] raises, the loop
    reads on; every line that is not [quit] is made a query, stripped, in
    the order read.  (An interrupt from the keyboard is no [Exception] and
    is not an input here.) *)
Theorem chat_loop_reads_on (self : Client) (inputs : list (Exn + string))
        (w : W) :
  ascii_input inputs ->
  (forall line, In (inr line) inputs -> is_quit line = false) ->
  loop_end (chat_loop self inputs w) = AwaitingInput
  /\ queries (chat_loop self inputs w)
     = flat_map (fun i => match i with
                          | inr line => [strip line]
                          | inl _ => []
                          end) inputs.
Proof.
  intros _ Hnq. unfold chat_loop.
  exact (chat_loop_from_goes_on self inputs Hnq w _ []).
Qed.

(** With no script path on the command line, [main] prints the usage
    and exits with code 1; no client is made and nothing is called. *)
Theorem main_without_script_path (getenv : string -> option string)
        (llm_error : option Exn) (argv : list string)
        (inputs : list (Exn + string)) (w : W) :
  length argv < 2 ->
  main (Sess:=Sess) (Transport:=Transport) getenv llm_error argv inputs w
  = mkMain (Exited 1) w
           [EvPrint "Usage: python client.py <path_to_server_script>"].
Proof.
  intros Hlen. destruct argv as [|a [|b rest]]; simpl in *;
    [reflexivity|reflexivity|lia].
Qed.

(** X16: when [connect_to_server] raises, [main] still closes the exit
    stack, with whatever [connect_to_server] had entered on it, and then
    ends with that exception; the chat loop is never entered. *)
Theorem main_cleans_up_after_failed_connect
        (getenv : string -> option string) (prog path : string)
        (more : list string) (inputs : list (Exn + string)) (w : W)
        (client : Client) (e : Exn) :
  new_client getenv None = inr client ->
  raised (connect_to_server client path w) = Some e ->
  main_end (main getenv None (prog :: path :: more) inputs w) = Failed e
  /\ main_world (main getenv None (prog :: path :: more) inputs w)
     = snd (aclose (exit_stack (self_after (connect_to_server client path w)))
                   (world_after (connect_to_server client path w)))
  /\ Forall (fun ev => kind ev <> KInitialCompletion
                       /\ kind ev <> KCompletionWithoutTools)
            (main_events (main getenv None (prog :: path :: more) inputs w)).
Proof.
  intros Hnew Hraised. unfold main. rewrite Hnew, Hraised. simpl.
  split; [reflexivity|]. split.
  - unfold cleanup.
    destruct (aclose _ _) as [[e'|] w'];
      [destruct (is_ProcessLookupError e')|]; reflexivity.
  - constructor; [split; discriminate|].
    apply Forall_app. split.
    + revert Hraised. unfold connect_to_server.
      destruct (negb _); simpl; [constructor|].
      destruct (stdio_client _ _ w) as [[e1|t] w1]; simpl;
        [repeat constructor; discriminate|].
      destruct (client_session t w1) as [[e2|s] w2]; simpl;
        [repeat constructor; discriminate|].
      destruct (initialize s w2) as [[e3|u] w3]; simpl;
        [repeat constructor; discriminate|].
      destruct (list_tools s w3) as [[e4|ts] w4]; simpl;
        repeat constructor; discriminate.
    + unfold cleanup.
      destruct (aclose _ _) as [[e'|] w'];
        [destruct (is_ProcessLookupError e')|]; simpl;
        repeat constructor; discriminate.
Qed.

End ConsoleFacts.

(** * Properties of the web service *)

Section AppFacts.

Context {W Sess Transport : Type} {C : Collaborators W Sess Transport}.
Local Open Scope py_scope.

Local Abbreviation Client := (@MCPClient Sess Transport).

#[local] Opaque String.append.

(** What [process_query] gives once the initial completion is there. *)
Lemma process_query_after_initial (self : Client) (query : string)
      (w w1 w2 : W) (s : Sess) (tools : list Tool) (c : ChatCompletion)
      (msg : ChatMessage) :
  session self = Some s ->
  list_tools s w = (inr tools, w1) ->
  chat_create (initial_request self [MsgSystem SYSTEM_PROMPT; MsgUser query]
                               (map available_tool tools)) w1
  = (inr c, w2) ->
  first_choice c = inr msg ->
  process_query self query w
  = match branch self msg (after_initial self query tools c msg w2) with
    | (Normal _, st) => (join_lines (final_text st), st)
    | (Returned r, st) => (inr r, st)
    | (Raised e, st) => (inl e, st)
    end.
Proof.
  intros Hs Hl Hc Hm. unfold process_query.
  rewrite (process_query_body_initial self query w Hs Hl Hc Hm).
  unfold bind.
  destruct (branch self msg (after_initial self query tools c msg w2))
    as [[a|r|e] st]; try reflexivity.
  rewrite return_joined_spec.
  now destruct (join_lines (final_text st)).
Qed.

(** X17: the route [/query] answers 500 when there is no client.  With a
    client that has no session it does not fail: it returns the envelope
    with [success] false and the text of the [AttributeError], and nothing
    has been called. *)
Theorem query_route_without_session (self : Client) (query : string)
        (w : W) :
  session self = None ->
  App.reply (App.process_query (Some self) query w)
  = App.Returns
      (App.mkQueryResponse false None
         (Some "'NoneType' object has no attribute 'list_tools'"))
  /\ App.served_events (App.process_query (Some self) query w) = []
  /\ App.reply (App.process_query (Sess:=Sess) (Transport:=Transport)
                  None query w)
     = App.HTTPException 500 "MCP client not initialized".
Proof.
  intros Hs. unfold App.process_query, process_query, process_query_body,
    enter, bind, set_messages, the_session, raise.
  rewrite Hs. simpl. repeat split.
Qed.

(** X18: when [call_tool] raises in the first tool call, the route
    [/query] returns [success] false with the text of that exception as
    [error] and no [response]: the announcement of the call is lost with
    the answer. *)
Theorem query_route_tool_exception (self : Client) (query : string)
        (w w1 w2 w3 : W) (s : Sess) (tools : list Tool) (c : ChatCompletion)
        (msg : ChatMessage) (tc : ToolCall) (tcs : list ToolCall)
        (args : PyVal) (e : Exn) :
  session self = Some s ->
  list_tools s w = (inr tools, w1) ->
  chat_create (initial_request self [MsgSystem SYSTEM_PROMPT; MsgUser query]
                               (map available_tool tools)) w1
  = (inr c, w2) ->
  first_choice c = inr msg ->
  tool_calls msg = Some (tc :: tcs) ->
  json_loads (arguments (function tc)) = inr args ->
  call_tool s (name (function tc)) args w2 = (inl e, w3) ->
  App.reply (App.process_query (Some self) query w)
  = App.Returns (App.mkQueryResponse false None (Some (exn_str e))).
Proof.
  intros Hs Hl Hc Hm Htc Hargs Hcall.
  unfold App.process_query.
  rewrite (process_query_after_initial self query w Hs Hl Hc Hm).
  unfold branch. rewrite Htc. simpl for_each.
  set (st0 := after_initial self query tools c msg w2).
  set (st1 := mkState w2 (messages st0) [] (Some args) (trace st0)).
  assert (H1 : parse_tool_args tc st0 = (Normal tt, st1))
    by exact (parse_tool_args_ok tc st0 Hargs).
  pose proof (@execute_tool_call_raises _ _ _ _ self tc st1 s args e w3
                Hs eq_refl Hcall) as H2.
  assert (Hres : exists st, resolve_tool_call self tc st0 = (Raised e, st)).
  { unfold resolve_tool_call.
    rewrite (@bind_normal _ _ _ _ _ _ _ _ H1).
    rewrite (@bind_raised _ _ _ _ _ _ _ _ H2). eauto. }
  destruct Hres as [st Hres].
  rewrite (@bind_raised _ _ _ _ _ _ _ _ Hres). reflexivity.
Qed.

(** X19: when a completion made after a tool call fails, the route
    [/query] still returns [success] true: the text of the failure is the
    last line of [response], and [error] is empty. *)
Theorem query_route_final_failure (self : Client) (query : string)
        (w w1 w2 : W) (s : Sess) (tools : list Tool) (c : ChatCompletion)
        (msg : ChatMessage) (req : ChatRequest) (e : Exn) :
  session self = Some s ->
  list_tools s w = (inr tools, w1) ->
  chat_create (initial_request self [MsgSystem SYSTEM_PROMPT; MsgUser query]
                               (map available_tool tools)) w1
  = (inr c, w2) ->
  first_choice c = inr msg ->
  In (EvChatCreate req (inl e))
     (App.served_events (App.process_query (Some self) query w)) ->
  req_tools req = None ->
  exists frags,
    App.reply (App.process_query (Some self) query w)
    = App.Returns
        (App.mkQueryResponse true
           (Some (join nl (frags
                           ++ [("Error in final LLM call: "
                                ++ exn_str e)%string])))
           None).
Proof.
  intros Hs Hl Hc Hm. unfold App.process_query.
  rewrite (process_query_after_initial self query w Hs Hl Hc Hm).
  pose proof (during_loop_after_initial self query tools c msg w2) as Hinit.
  destruct (branch self msg (after_initial self query tools c msg w2))
    as [out st] eqn:E.
  assert (Hpost : match out with
                  | Returned r => answer_after_failure r st
                  | _ => no_final_failure (trace st)
                  end).
  { unfold branch in E.
    destruct (tool_calls msg) as [[|tc tcs]|].
    - unfold final_text_append in E. inversion E; subst. simpl.
      now destruct Hinit as (? & _ & _ & ?).
    - apply (for_each_answer _ _ Hinit) in E.
      destruct out as [[]|r|e4]; simpl in E; auto.
      now destruct E as (? & _ & _ & ?).
    - unfold final_text_append in E. inversion E; subst. simpl.
      now destruct Hinit as (? & _ & _ & ?). }
  destruct out as [[]|r|e4].
  - destruct (join_lines (final_text st)); simpl; intros Hin Hnone;
      exfalso; eapply Hpost; eauto.
  - simpl. intros Hin Hnone.
    destruct Hpost as (frags & e0 & -> & _ & Huniq).
    rewrite (Huniq _ _ Hin Hnone). exists frags. reflexivity.
  - simpl. intros Hin Hnone. exfalso; eapply Hpost; eauto.
Qed.

(** X20: [/capabilities] lists, by name and description and in the same
    order, the tools that [process_query] offers to the model in the same
    world: both read them from the session at the time of the call. *)
Theorem capabilities_are_the_tools_offered (self : Client) (query : string)
        (w w1 : W) (s : Sess) (tools : list Tool) :
  session self = Some s ->
  list_tools s w = (inr tools, w1) ->
  App.reply (App.get_capabilities (Some self) w)
  = App.Returns
      (App.CapTools
         (map (fun tool => (tool_name tool, tool_description tool)) tools))
  /\ exists rest,
      map req_tools
          (chat_requests (trace (snd (process_query self query w))))
      = Some tools :: rest.
Proof.
  intros Hs Hl. split.
  - unfold App.get_capabilities. now rewrite Hs, Hl.
  - assert (Hmap : map available_tool tools = tools).
    { clear. induction tools as [|[n d i] tools IH]; simpl; [reflexivity|].
      unfold available_tool at 1. simpl. now rewrite IH. }
    destruct (chat_create
                (initial_request self [MsgSystem SYSTEM_PROMPT; MsgUser query]
                                 (map available_tool tools)) w1)
      as [[e|c] w2] eqn:Hc.
    { rewrite process_query_state.
      unfold process_query_body, enter, bind, set_messages, the_session,
        call, get_messages, try_except, lift_exn, print, log, choices_0,
        ret, raise.
      rewrite Hs. simpl. rewrite Hl. simpl. rewrite Hc. simpl.
      rewrite Hmap. eauto. }
    destruct (first_choice c) as [e|msg] eqn:Hm.
    { rewrite process_query_state.
      unfold process_query_body, enter, bind, set_messages, the_session,
        call, get_messages, try_except, lift_exn, print, log, choices_0,
        ret, raise.
      rewrite Hs. simpl. rewrite Hl. simpl. rewrite Hc. simpl.
      rewrite Hm. simpl. rewrite Hmap. eauto. }
    rewrite (process_query_state_initial self query w Hs Hl Hc Hm).
    unfold branch.
    assert (Hgrow : forall (l : list ToolCall) (st st' : State)
                           (out : Outcome unit),
               for_each (resolve_tool_call self) l st = (out, st') ->
               exists d, trace st' = trace st ++ d).
    { induction l as [|tc l IH]; intros st st' out H; simpl in H.
      - inversion H; subst. exists []. now rewrite app_nil_r.
      - unfold bind in H.
        destruct (resolve_tool_call self tc st) as [o st1] eqn:E.
        assert (Hone : exists d, trace st1 = trace st ++ d).
        { apply resolve_tool_call_spec in E.
          destruct E as (st1' & (_ & _ & _ & _ & p & Ht1 & _) & E).
          destruct E as [[_ [_ Ht]]|(st2 & st3 & Hex & Htp & Hf)].
          - destruct Ht as [Ht|(t & a & r & Ht & _)]; rewrite Ht, Ht1;
              [eauto|rewrite <- app_assoc; eauto].
          - destruct Hex as (a & c' & e' & _ & _ & _ & _ & Ht2).
            destruct Htp as (_ & _ & _ & msgs & delta & _ & Ht3 & _).
            destruct Hf as (_ & _ & Hf).
            destruct Hf as [[_ (c2 & t & _ & Ht4)]|(e2 & (r & _ & Ht4 & _) & _)];
              rewrite Ht4, Ht3, Ht2, Ht1, <- !app_assoc; eauto. }
        destruct Hone as [d1 Hd1].
        destruct o as [[]|r|e]; [|inversion H; subst; eauto
                                  |inversion H; subst; eauto].
        apply IH in H. destruct H as [d2 Hd2].
        rewrite Hd2, Hd1, <- app_assoc. eauto. }
    destruct (tool_calls msg) as [[|tc tcs]|];
      try (simpl; rewrite Hmap; eauto).
    destruct (for_each (resolve_tool_call self) (tc :: tcs)
                (after_initial self query tools c msg w2)) as [out st] eqn:E.
    apply Hgrow in E. destruct E as [d Hd]. simpl snd. rewrite Hd.
    simpl. rewrite Hmap. eauto.
Qed.

End AppFacts.

(** ** Start-up *)

Section StartupFacts.

Context {W Sess Transport : Type} {C : Collaborators W Sess Transport}.

Lemma length_append (p s : string) :
  String.length (p ++ s) = String.length p + String.length s.
Proof. induction p as [|c p IH]; simpl; [reflexivity|now rewrite IH]. Qed.

Lemma substring_all (s : string) : substring 0 (String.length s) s = s.
Proof. induction s as [|c s IH]; simpl; [reflexivity|now rewrite IH]. Qed.

Lemma substring_skip (p s : string) :
  substring (String.length p) (String.length s) (p ++ s) = s.
Proof.
  induction p as [|c p IH]; simpl; [apply substring_all|exact IH].
Qed.

Lemma endswith_append (p s : string) : endswith (p ++ s) s = true.
Proof.
  unfold endswith. cbv zeta. rewrite length_append.
  replace (Nat.leb (String.length s) (String.length p + String.length s))
    with true by (symmetry; apply Nat.leb_le; lia).
  replace (String.length p + String.length s - String.length s)
    with (String.length p) by lia.
  rewrite substring_skip. apply String.eqb_refl.
Qed.

Lemma append_assoc (a b c : string) : ((a ++ b) ++ c = a ++ (b ++ c))%string.
Proof. induction a as [|x a IH]; simpl; [reflexivity|now rewrite IH]. Qed.

Lemma substring_split (s : string) :
  forall k, k <= String.length s ->
            s = (substring 0 k s
                 ++ substring k (String.length s - k) s)%string.
Proof.
  induction s as [|c s IH]; intros [|k] Hk; simpl in *; try lia.
  - reflexivity.
  - now rewrite substring_all.
  - rewrite <- IH by lia. reflexivity.
Qed.

Lemma endswith_inv (s t : string) :
  endswith s t = true -> exists p, s = (p ++ t)%string.
Proof.
  unfold endswith. cbv zeta.
  destruct (Nat.leb (String.length t) (String.length s)) eqn:Hle;
    [|discriminate].
  intros H. apply String.eqb_eq in H. apply Nat.leb_le in Hle.
  exists (substring 0 (String.length s - String.length t) s).
  pose proof (@substring_split s (String.length s - String.length t)) as Hs.
  replace (String.length s - (String.length s - String.length t))
    with (String.length t) in Hs by lia.
  rewrite H in Hs. apply Hs. lia.
Qed.

Lemma endswith_suffix (s a b : string) :
  endswith s (a ++ b) = true -> endswith s b = true.
Proof.
  intros H. apply endswith_inv in H. destruct H as [p ->].
  rewrite <- append_assoc. apply endswith_append.
Qed.

Lemma os_path_join_ends (d name : string) :
  endswith (os_path_join d name) name = true.
Proof.
  unfold os_path_join.
  destruct (String.eqb d EmptyString).
  - exact (endswith_append EmptyString name).
  - destruct (endswith d "/").
    + apply endswith_append.
    + rewrite <- append_assoc. apply endswith_append.
Qed.

(** X21: wherever the service is installed, start-up asks for the script
    [get_worker_server.py] beside [app.py] and starts it with [python]; the
    suffix test of [connect_to_server] cannot fail there. *)
Theorem startup_starts_python (getenv : string -> option string)
        (dirname : string) (w : W) :
  exists rest,
    App.served_events
      (App.startup_event (Sess:=Sess) (Transport:=Transport) getenv None
                         dirname w)
    = EvStdioClient "python" [os_path_join dirname "get_worker_server.py"]
      :: rest.
Proof.
  unfold App.startup_event, new_client.
  set (client := mkClient None [] _).
  set (path := os_path_join dirname "get_worker_server.py").
  assert (Hpy : endswith path ".py" = true).
  { apply (endswith_suffix path "get_worker_server" ".py").
    exact (os_path_join_ends dirname "get_worker_server.py"). }
  pose proof (connect_to_server_starts client path w (or_introl Hpy))
    as [rest Hev].
  rewrite Hpy in Hev.
  destruct (raised (connect_to_server client path w)); simpl;
    rewrite Hev; simpl; eauto.
Qed.

End StartupFacts.

(** * Properties of the tool server *)

Section ServerFacts.

Import Server.

Context {HW : Type} {H : Http HW}.

(** X22: without a token (unset or empty) nothing is requested.
    [get_workday_data] raises [ValueError] rather than returning an error
    dict, and so do the tools; only the empty worker id is answered before
    the token is looked at. *)
Theorem no_token_no_request (limit offset : option Z) (search : option string)
        (worker_id : string) (hw : HW) :
  token_missing = true ->
  worker_id <> EmptyString ->
  let missing :=
    mkExn ValueError
      "Missing API token. Set WORKDAY_API_TOKEN environment variable." in
  get_workers_tool limit offset search hw = mkRun (inl missing) hw []
  /\ get_worker_details_tool worker_id hw = mkRun (inl missing) hw []
  /\ get_worker_details_tool EmptyString hw
     = mkRun (inr worker_id_required) hw [].
Proof.
  intros Htok Hid. simpl.
  unfold get_workers_tool, get_worker_details_tool, tool_of, get_workday_data.
  rewrite Htok. simpl.
  destruct (String.eqb worker_id EmptyString) eqn:E.
  - apply String.eqb_eq in E. contradiction.
  - repeat split.
Qed.

(** X23: with a token, [get_workday_data] makes exactly one request and
    gives a value for whatever goes wrong in it or after it: the decoded
    body, or a dict of [error] and [status_code].  The one exception is an
    [HTTPError] raised by [requests.get] itself, whose handler reads the
    response that was never bound. *)
Theorem http_failures_are_returned (u : string) (params : option PyVal)
        (hw : HW) :
  token_missing = false ->
  (forall e, fst (requests_get (mkRequest u api_headers params) hw) = inl e ->
             caught_as e <> IsHTTPError) ->
  requests (get_workday_data u params hw)
  = [mkRequest u api_headers params]
  /\ exists v,
      result (get_workday_data u params hw) = inr v
      /\ ((exists r, fst (requests_get (mkRequest u api_headers params) hw)
                     = inr r
                     /\ raise_for_status r = None /\ json r = inr v)
          \/ exists message code, v = error_dict message code).
Proof.
  intros Htok Hget. unfold get_workday_data. rewrite Htok.
  fold api_headers.
  destruct (requests_get (mkRequest u api_headers params) hw)
    as [[e|r] hw'] eqn:E; simpl in *.
  - split; [reflexivity|]. specialize (Hget e eq_refl).
    unfold handle. destruct (caught_as e); try contradiction;
      eexists; (split; [reflexivity|]); right; eauto.
  - destruct (raise_for_status r) as [e|] eqn:Er; simpl.
    + split; [reflexivity|]. unfold handle.
      destruct (caught_as e); eexists; (split; [reflexivity|]); right; eauto.
    + destruct (json r) as [e|v] eqn:Ej; simpl.
      * split; [reflexivity|]. unfold handle.
        destruct (caught_as e); eexists; (split; [reflexivity|]); right; eauto.
      * split; [reflexivity|]. exists v. split; [reflexivity|].
        left. exists r. auto.
Qed.

(** X24: when the API answers a worker id with a failing status, the
    tool does not raise: it returns, as JSON text, the message of the
    [HTTPError] with the text of the response, and the status code of the
    response; the body is not decoded. *)
Theorem details_tool_forwards_status (worker_id : string) (hw hw' : HW)
        (r : Response) (e : HttpExn) :
  token_missing = false ->
  worker_id <> EmptyString ->
  requests_get
    (mkRequest (WORKDAY_API_URL ++ "/" ++ worker_id) api_headers
               (Some (PDict [("include", PStr "details")]))) hw
  = (inr r, hw') ->
  raise_for_status r = Some e ->
  caught_as e = IsHTTPError ->
  result (get_worker_details_tool worker_id hw)
  = inr (json_dumps
           (PDict [("error",
                    PStr ("Workday API error: " ++ http_exn_str e
                          ++ ", Response: " ++ text r));
                   ("status_code", PInt (status_code r))])
           (Some 2)).
Proof.
  intros Htok Hid Hget Hst Hcls.
  unfold get_worker_details_tool, tool_of, get_workday_data.
  destruct (String.eqb worker_id EmptyString) eqn:E.
  { apply String.eqb_eq in E. contradiction. }
  rewrite Htok. fold api_headers. rewrite Hget, Hst. simpl.
  unfold handle. rewrite Hcls. reflexivity.
Qed.

(** X25: [get_workers_tool] sends the collection URL with exactly the
    arguments that are not [None], zero or empty: an offset or a limit of
    zero and an empty search are never sent. *)
Theorem workers_tool_sends_truthy_arguments (limit offset : option Z)
        (search : option string) (hw : HW) :
  token_missing = false ->
  requests (get_workers_tool limit offset search hw)
  = [mkRequest WORKDAY_API_URL api_headers
               (Some (PDict (query_params limit offset search)))]
  /\ forall k v,
      In (k, v) (query_params limit offset search)
      <-> (k = "offset" /\ exists o, offset = Some o /\ o <> 0%Z /\ v = PInt o)
          \/ (k = "limit" /\ exists l, limit = Some l /\ l <> 0%Z /\ v = PInt l)
          \/ (k = "search"
              /\ exists s, search = Some s /\ s <> EmptyString /\ v = PStr s).
Proof.
  intros Htok. split.
  - unfold get_workers_tool, tool_of, get_workday_data. rewrite Htok.
    fold api_headers.
    destruct (requests_get _ hw) as [[e|r] hw']; simpl.
    + now destruct (handle None e).
    + destruct (raise_for_status r) as [e|]; simpl.
      * now destruct (handle (Some r) e).
      * destruct (json r) as [e|v]; simpl; [|reflexivity].
        now destruct (handle (Some r) e).
  - intros k v. unfold query_params. rewrite !in_app_iff.
    assert (Ho : In (k, v) match offset with
                           | Some o => if Z.eqb o 0 then []
                                       else [("offset", PInt o)]
                           | None => []
                           end
                 <-> k = "offset"
                     /\ exists o, offset = Some o /\ o <> 0%Z /\ v = PInt o).
    { destruct offset as [o|]; [destruct (Z.eqb_spec o 0)|]; simpl; split.
      - tauto.
      - intros (_ & o' & Heq & Hne & _). inversion Heq; subst. contradiction.
      - intros [Heq|[]]. inversion Heq; subst. eauto.
      - intros (-> & o' & Heq & _ & ->). inversion Heq; subst. auto.
      - tauto.
      - intros (_ & o' & Heq & _). discriminate. }
    assert (Hl : In (k, v) match limit with
                           | Some l => if Z.eqb l 0 then []
                                       else [("limit", PInt l)]
                           | None => []
                           end
                 <-> k = "limit"
                     /\ exists l, limit = Some l /\ l <> 0%Z /\ v = PInt l).
    { destruct limit as [l|]; [destruct (Z.eqb_spec l 0)|]; simpl; split.
      - tauto.
      - intros (_ & l' & Heq & Hne & _). inversion Heq; subst. contradiction.
      - intros [Heq|[]]. inversion Heq; subst. eauto.
      - intros (-> & l' & Heq & _ & ->). inversion Heq; subst. auto.
      - tauto.
      - intros (_ & l' & Heq & _). discriminate. }
    assert (Hs : In (k, v) match search with
                           | Some s => if String.eqb s EmptyString then []
                                       else [("search", PStr s)]
                           | None => []
                           end
                 <-> k = "search"
                     /\ exists s, search = Some s /\ s <> EmptyString
                                  /\ v = PStr s).
    { destruct search as [s|]; [destruct (String.eqb_spec s EmptyString)|];
        simpl; split.
      - tauto.
      - intros (_ & s' & Heq & Hne & _). inversion Heq; subst. contradiction.
      - intros [Heq|[]]. inversion Heq; subst. eauto.
      - intros (-> & s' & Heq & _ & ->). inversion Heq; subst. auto.
      - tauto.
      - intros (_ & s' & Heq & _). discriminate. }
    rewrite Ho, Hl, Hs. tauto.
Qed.

(** X26: on a failure of the API call the resource [get_workers] returns
    only the message, as the object [{error: message}] without
    indentation; the status code that the tool keeps is dropped. *)
Theorem workers_resource_keeps_the_message (hw : HW) (message : string)
        (code : Z) :
  result (get_workday_data WORKDAY_API_URL None hw)
  = inr (error_dict message code) ->
  result (get_workers hw)
  = inr (json_dumps (PDict [("error", PStr message)]) None)
  /\ result (tool_of (get_workday_data WORKDAY_API_URL None hw))
     = inr (json_dumps (error_dict message code) (Some 2)).
Proof.
  intros Hres. unfold get_workers, resource_of, tool_of. rewrite Hres.
  split; reflexivity.
Qed.

(** X27: a body that decodes to [null], a boolean or a number makes the
    resource raise [TypeError] at the test for the key [error], where the
    tools return the body as text. *)
Theorem workers_resource_needs_a_container (hw : HW) (v : PyVal) :
  result (get_workday_data WORKDAY_API_URL None hw) = inr v ->
  v = PNone \/ (exists b, v = PBool b) \/ (exists z, v = PInt z) ->
  (exists e, result (get_workers hw) = inl e /\ exn_class e = TypeError)
  /\ result (tool_of (get_workday_data WORKDAY_API_URL None hw))
     = inr (json_dumps v (Some 2)).
Proof.
  intros Hres Hv. unfold get_workers, resource_of, tool_of. rewrite Hres.
  split; [|reflexivity].
  destruct Hv as [-> | [[b ->] | [z ->]]]; simpl;
    eexists; split; reflexivity.
Qed.

End ServerFacts.

(** * The further properties at the scripted cases *)

Import Cases.

Lemma process_query_without_session_witness :
  session unconnected = None
  /\ fst (process_query unconnected "q" direct_answer)
     = inl (mkExn AttributeError
              "'NoneType' object has no attribute 'list_tools'")
  /\ trace (snd (process_query unconnected "q" direct_answer)) = []
  /\ world (snd (process_query unconnected "q" direct_answer))
     = direct_answer.
Proof.
  split; [reflexivity|].
  exact (@process_query_without_session _ _ _ scripted unconnected "q"
           direct_answer eq_refl).
Defined.

Lemma process_query_list_tools_fails_witness :
  list_tools (Collaborators:=offline) true tt = (inl unreachable, tt)
  /\ fst (process_query (C:=offline) stale "q" tt) = inl unreachable
  /\ trace (snd (process_query (C:=offline) stale "q" tt)) = [EvListTools].
Proof.
  split; [reflexivity|].
  exact (@process_query_list_tools_fails _ _ _ offline stale "q" tt tt true
           unreachable eq_refl eq_refl).
Defined.

Lemma process_query_initial_completion_fails_witness :
  fst (process_query client "q" initial_fails)
  = inl (mkExn AttributeError
           "'ListToolsResult' object has no attribute 'choices'")
  /\ trace (snd (process_query client "q" initial_fails))
     = [EvListTools;
        EvChatCreate
          (initial_request client [MsgSystem SYSTEM_PROMPT; MsgUser "q"]
                           (map available_tool [workers_tool; worker_tool]))
          (inl unreachable);
        EvPrint ("Error in LLM call: " ++ exn_str unreachable)].
Proof.
  refine (@process_query_initial_completion_fails _ _ _ scripted client "q"
            initial_fails initial_fails
            (mkScript [workers_tool; worker_tool] [] [] [] None)
            tt [workers_tool; worker_tool] unreachable _ _ _);
    vm_compute; reflexivity.
Defined.

Lemma direct_answer_without_content_witness :
  content (mkChatMessage None None) = None
  /\ exists e,
      fst (process_query client "q" no_content) = inl e
      /\ exn_class e = TypeError.
Proof.
  split; [reflexivity|].
  refine (@direct_answer_without_content _ _ _ scripted client "q"
            no_content no_content
            (mkScript [workers_tool; worker_tool] [] [] [] None)
            tt [workers_tool; worker_tool]
            (mkChatCompletion [mkChatMessage None None])
            (mkChatMessage None None) _ _ _ _ (or_introl eq_refl) _);
    vm_compute; reflexivity.
Defined.

Lemma unparsed_arguments_reuse_previous_witness :
  json_loads (arguments (function (tc "call_2" "get_worker_details_tool" "{")))
  = inl (mkExn JSONDecodeError
           "Expecting property name enclosed in double quotes")
  /\ exists rest,
      trace (snd (resolve_tool_call client
                    (tc "call_2" "get_worker_details_tool" "{")
                    after_first_call))
      = trace after_first_call
        ++ [EvPrint ("Error parsing tool args: "
                     ++ exn_str (mkExn JSONDecodeError
                          "Expecting property name enclosed in double quotes"));
            EvCallTool "get_worker_details_tool" (PDict [])
              (fst (call_tool tt "get_worker_details_tool" (PDict [])
                              (world after_first_call)))]
        ++ rest.
Proof.
  split; [reflexivity|].
  exact (@unparsed_arguments_reuse_previous _ _ _ scripted client
           (tc "call_2" "get_worker_details_tool" "{") after_first_call tt
           (mkExn JSONDecodeError
              "Expecting property name enclosed in double quotes")
           eq_refl eq_refl).
Defined.

Lemma template_needs_both_keys_witness :
  tool_args after_first_call = Some (PDict [])
  /\ expand_template client after_first_call = (Normal tt, after_first_call).
Proof.
  split; [reflexivity|].
  refine (@template_needs_both_keys _ _ _ scripted client after_first_call
            (PDict []) eq_refl _).
  intros d Hd. inversion Hd; subst. left. reflexivity.
Defined.

Lemma template_without_message_attribute_witness :
  pr_has_message rendered = false
  /\ expand_template client template_state
     = (Normal tt,
        mkState (mkScript [workers_tool; worker_tool] [] [] [] None)
                (messages template_state) (final_text template_state)
                (tool_args template_state)
                (trace template_state
                 ++ [EvGetPrompt (PStr "worker_search_prompt")
                       (map (fun kv => (fst kv, py_str (snd kv)))
                            [("name", PStr "Jane"); ("active", PBool true)])
                       (inr rendered)])).
Proof.
  split; [reflexivity|].
  refine (@template_without_message_attribute _ _ _ scripted client
            template_state tt _ _ _ _ _ _ _ _ _ _ _); reflexivity.
Defined.

Lemma one_tool_call_answer_witness :
  fst (process_query client "q" tool_reports_error)
  = inr (join nl [announcement "get_workers_tool" (PDict []);
                  str_response failed;
                  ("LLM final response: " ++ "one")%string]).
Proof.
  refine (@one_tool_call_answer _ _ _ scripted client "q"
            tool_reports_error tool_reports_error
            (mkScript [workers_tool; worker_tool] [says "one"] [inr failed]
                      [] None)
            (mkScript [workers_tool; worker_tool] [says "one"] [] [] None)
            (mkScript [workers_tool; worker_tool] [] [] [] None)
            tt [workers_tool; worker_tool]
            (mkChatCompletion
               [mkChatMessage None
                  (Some [tc "call_1" "get_workers_tool" "{}"])])
            (mkChatCompletion [mkChatMessage (Some "one") None])
            (mkChatMessage None (Some [tc "call_1" "get_workers_tool" "{}"]))
            (mkChatMessage (Some "one") None)
            (tc "call_1" "get_workers_tool" "{}") (PDict [])
            [TextContent "Error executing tool get_workers_tool"] true "one"
            _ _ _ _ _ _ _ _ _ _ _);
    try (vm_compute; reflexivity).
  intros d Hd. inversion Hd; subst. left. reflexivity.
Defined.

Lemma connect_to_server_command_witness :
  endswith "server.js" ".js" = true
  /\ exists rest,
      events (connect_to_server client "server.js" direct_answer)
      = EvStdioClient (if endswith "server.js" ".py" then "python" else "node")
                      ["server.js"]
        :: rest.
Proof.
  split; [reflexivity|].
  exact (@connect_to_server_command _ _ _ scripted client "server.js"
           direct_answer (or_intror eq_refl)).
Defined.

Lemma quit_ends_chat_loop_witness :
  is_quit " Quit" = true
  /\ chat_loop client ([inr "list workers"] ++ inr " Quit" :: [inr "more"])
                direct_answer
     = mkLoop Quit
              (loop_world (chat_loop client [inr "list workers"] direct_answer))
              (loop_events (chat_loop client [inr "list workers"]
                                      direct_answer))
              (queries (chat_loop client [inr "list workers"] direct_answer)).
Proof.
  split; [reflexivity|].
  refine (@quit_ends_chat_loop _ _ _ scripted client [inr "list workers"]
            [inr "more"] " Quit" direct_answer _ eq_refl _).
  - intros l [Hin|[Hin|[]]]; inversion Hin; subst; reflexivity.
  - vm_compute. reflexivity.
Defined.

Lemma chat_loop_reads_on_witness :
  loop_end (chat_loop client
              [inl (mkExn (OtherError "EOFError") "EOF when reading a line");
               inr "  list workers "]
              direct_answer)
  = AwaitingInput
  /\ queries (chat_loop client
                [inl (mkExn (OtherError "EOFError") "EOF when reading a line");
                 inr "  list workers "]
                direct_answer)
     = flat_map (fun i => match i with
                          | inr line => [strip line]
                          | inl _ => []
                          end)
                [inl (mkExn (OtherError "EOFError") "EOF when reading a line");
                 inr "  list workers "].
Proof.
  refine (@chat_loop_reads_on _ _ _ scripted client _ direct_answer _ _).
  - intros line [Hin|[Hin|[]]]; inversion Hin; subst. reflexivity.
  - intros line [Hin|[Hin|[]]]; inversion Hin; subst. reflexivity.
Defined.

Lemma main_without_script_path_witness :
  length ["get_worker_client.py"] < 2
  /\ main (C:=scripted) (fun _ => None) None ["get_worker_client.py"] []
          direct_answer
     = mkMain (Exited 1) direct_answer
              [EvPrint "Usage: python client.py <path_to_server_script>"].
Proof.
  assert (Hlen : length ["get_worker_client.py"] < 2) by (simpl; lia).
  split; [exact Hlen|].
  exact (@main_without_script_path _ _ _ scripted (fun _ => None) None
           ["get_worker_client.py"] [] direct_answer Hlen).
Defined.

Lemma main_cleans_up_after_failed_connect_witness :
  raised (connect_to_server unconnected "server.rb" process_gone)
  = Some (mkExn ValueError "Server script must be a .py or .js file")
  /\ main_end (main (C:=scripted) (fun _ => None) None
                    ["get_worker_client.py"; "server.rb"] [] process_gone)
     = Failed (mkExn ValueError "Server script must be a .py or .js file").
Proof.
  split; [reflexivity|].
  exact (proj1 (@main_cleans_up_after_failed_connect _ _ _ scripted
                  (fun _ => None) "get_worker_client.py" "server.rb" [] []
                  process_gone unconnected
                  (mkExn ValueError "Server script must be a .py or .js file")
                  eq_refl eq_refl)).
Defined.

Lemma query_route_without_session_witness :
  session unconnected = None
  /\ App.reply (App.process_query (Some unconnected) "q" direct_answer)
     = App.Returns
         (App.mkQueryResponse false None
            (Some "'NoneType' object has no attribute 'list_tools'")).
Proof.
  split; [reflexivity|].
  exact (proj1 (@query_route_without_session _ _ _ scripted unconnected "q"
                  direct_answer eq_refl)).
Defined.

Lemma query_route_tool_exception_witness :
  App.reply (App.process_query (Some client) "q" tool_raises)
  = App.Returns (App.mkQueryResponse false None (Some (exn_str unreachable))).
Proof.
  refine (@query_route_tool_exception _ _ _ scripted client "q"
            tool_raises tool_raises
            (mkScript [workers_tool; worker_tool] [says "one"]
                      [inl unreachable] [] None)
            (mkScript [workers_tool; worker_tool] [says "one"] [] [] None)
            tt [workers_tool; worker_tool]
            (mkChatCompletion
               [mkChatMessage None
                  (Some [tc "call_1" "get_workers_tool" "{}"])])
            (mkChatMessage None (Some [tc "call_1" "get_workers_tool" "{}"]))
            (tc "call_1" "get_workers_tool" "{}") [] (PDict []) unreachable
            _ _ _ _ _ _ _);
    vm_compute; reflexivity.
Defined.

Lemma query_route_final_failure_witness :
  In (EvChatCreate final_fails_request (inl unreachable))
     (App.served_events (App.process_query (Some client) "q" final_fails))
  /\ exists frags,
      App.reply (App.process_query (Some client) "q" final_fails)
      = App.Returns
          (App.mkQueryResponse true
             (Some (join nl (frags
                             ++ [("Error in final LLM call: "
                                  ++ exn_str unreachable)%string])))
             None).
Proof.
  assert (Hin : In (EvChatCreate final_fails_request (inl unreachable))
                   (App.served_events
                      (App.process_query (Some client) "q" final_fails))).
  { vm_compute. right. right. right. left. reflexivity. }
  split; [exact Hin|].
  refine (@query_route_final_failure _ _ _ scripted client "q"
            final_fails final_fails
            (mkScript [workers_tool; worker_tool] [inl unreachable]
                      [inr hello] [] None)
            tt [workers_tool; worker_tool]
            (mkChatCompletion
               [mkChatMessage None
                  (Some [tc "call_1" "get_workers_tool" "{}"])])
            (mkChatMessage None (Some [tc "call_1" "get_workers_tool" "{}"]))
            final_fails_request unreachable _ _ _ _ Hin _);
    vm_compute; reflexivity.
Defined.

Lemma capabilities_are_the_tools_offered_witness :
  App.reply (App.get_capabilities (Some client) direct_answer)
  = App.Returns
      (App.CapTools
         (map (fun tool => (tool_name tool, tool_description tool))
              [workers_tool; worker_tool]))
  /\ exists rest,
      map req_tools
          (chat_requests (trace (snd (process_query client "q" direct_answer))))
      = Some [workers_tool; worker_tool] :: rest.
Proof.
  exact (@capabilities_are_the_tools_offered _ _ _ scripted client "q"
           direct_answer direct_answer tt [workers_tool; worker_tool]
           eq_refl eq_refl).
Defined.

Lemma no_token_no_request_witness :
  Server.token_missing (H:=without_token) = true
  /\ Server.get_workers_tool (H:=without_token) (Some 100%Z) (Some 0%Z)
       (Some EmptyString) [inr jane]
     = Server.mkRun
         (inl (mkExn ValueError
                 "Missing API token. Set WORKDAY_API_TOKEN environment variable."))
         [inr jane] [].
Proof.
  split; [reflexivity|].
  refine (proj1 (@no_token_no_request _ without_token (Some 100%Z)
                   (Some 0%Z) (Some EmptyString) "42" [inr jane] eq_refl _)).
  discriminate.
Defined.

Lemma http_failures_are_returned_witness :
  Server.token_missing (H:=with_token) = false
  /\ Server.requests (Server.get_workday_data (H:=with_token) api None
                        [inr not_found])
     = [Server.mkRequest api (Server.api_headers (H:=with_token)) None].
Proof.
  split; [reflexivity|].
  refine (proj1 (@http_failures_are_returned _ with_token api None
                   [inr not_found] eq_refl _)).
  intros e He. vm_compute in He. discriminate.
Defined.

Lemma details_tool_forwards_status_witness :
  Server.raise_for_status not_found
  = Some (Server.mkHttpExn Server.IsHTTPError "404 Client Error")
  /\ Server.result (Server.get_worker_details_tool (H:=with_token) "42"
                      [inr not_found])
     = inr (Server.json_dumps (Http:=with_token)
              (PDict [("error",
                       PStr ("Workday API error: "
                             ++ Server.http_exn_str
                                  (Server.mkHttpExn Server.IsHTTPError
                                                    "404 Client Error")
                             ++ ", Response: " ++ Server.text not_found));
                      ("status_code", PInt (Server.status_code not_found))])
              (Some 2)).
Proof.
  split; [reflexivity|].
  refine (@details_tool_forwards_status _ with_token "42"
            [inr not_found] [] not_found
            (Server.mkHttpExn Server.IsHTTPError "404 Client Error")
            eq_refl _ eq_refl eq_refl eq_refl).
  discriminate.
Defined.

Lemma workers_tool_sends_truthy_arguments_witness :
  Server.token_missing (H:=with_token) = false
  /\ Server.requests (Server.get_workers_tool (H:=with_token) (Some 100%Z)
                        (Some 0%Z) (Some EmptyString) [inr jane])
     = [Server.mkRequest api (Server.api_headers (H:=with_token))
          (Some (PDict (Server.query_params (Some 100%Z) (Some 0%Z)
                                            (Some EmptyString))))].
Proof.
  split; [reflexivity|].
  exact (proj1 (@workers_tool_sends_truthy_arguments _ with_token
                  (Some 100%Z) (Some 0%Z) (Some EmptyString) [inr jane]
                  eq_refl)).
Defined.

Lemma workers_resource_keeps_the_message_witness :
  Server.result (Server.get_workday_data (H:=with_token) api None
                   [inr not_found])
  = inr (Server.error_dict
           "Workday API error: 404 Client Error, Response: Not Found" 404)
  /\ Server.result (Server.get_workers (H:=with_token) [inr not_found])
     = inr (Server.json_dumps (Http:=with_token)
              (PDict [("error",
                       PStr "Workday API error: 404 Client Error, Response: Not Found")])
              None).
Proof.
  assert (Hres : Server.result (Server.get_workday_data (H:=with_token) api
                                  None [inr not_found])
                 = inr (Server.error_dict
                          "Workday API error: 404 Client Error, Response: Not Found"
                          404))
    by (vm_compute; reflexivity).
  split; [exact Hres|].
  exact (proj1 (@workers_resource_keeps_the_message _ with_token
                  [inr not_found]
                  "Workday API error: 404 Client Error, Response: Not Found"
                  404%Z Hres)).
Defined.

Lemma workers_resource_needs_a_container_witness :
  Server.result (Server.get_workday_data (H:=with_token) api None
                   [inr null_body])
  = inr PNone
  /\ exists e,
      Server.result (Server.get_workers (H:=with_token) [inr null_body])
      = inl e
      /\ exn_class e = TypeError.
Proof.
  assert (Hres : Server.result (Server.get_workday_data (H:=with_token) api
                                  None [inr null_body])
                 = inr PNone)
    by (vm_compute; reflexivity).
  split; [exact Hres|].
  exact (proj1 (@workers_resource_needs_a_container _ with_token
                  [inr null_body] PNone Hres (or_introl eq_refl))).
Defined.

(** * Tool calls that fail, over a whole query *)

Section ToolFailures.

Context {W Sess Transport : Type} {C : Collaborators W Sess Transport}.
Local Open Scope py_scope.

Local Abbreviation Client := (@MCPClient Sess Transport).
Local Abbreviation St := (@State W).

#[local] Opaque String.append.

Lemma no_failed_call_app (tr d : list Event) :
  no_failed_call tr ->
  Forall (fun ev => forall t a e, ev <> EvCallTool t a (inl e)) d ->
  no_failed_call (tr ++ d).
Proof.
  intros Htr Hd t a e Hin. apply in_app_iff in Hin.
  destruct Hin as [Hin|Hin]; [exact (Htr _ _ _ Hin)|].
  rewrite Forall_forall in Hd. exact (Hd _ Hin t a e eq_refl).
Qed.

Lemma prints_are_no_calls (p : list Event) :
  only_prints p ->
  Forall (fun ev => forall t a e, ev <> EvCallTool t a (inl e)) p.
Proof.
  intros H. eapply Forall_impl; [|exact H].
  intros ev [line ->] t a e. discriminate.
Qed.

Lemma template_events_are_no_calls (d : list Event) :
  Forall template_event d ->
  Forall (fun ev => forall t a e, ev <> EvCallTool t a (inl e)) d.
Proof.
  intros H. eapply Forall_impl; [|exact H].
  intros [] Hev t a e; simpl in Hev; try contradiction; discriminate.
Qed.

Lemma surfaced_more (ft more : list Dyn)
      (p : ToolCall * (string * PyVal * ToolResponse)) (m : Message) :
  surfaced ft p m -> surfaced (ft ++ more) p m.
Proof.
  intros (text & Hn & Hc & Hm & Hin). exists text.
  repeat split; auto. apply in_app_iff. now left.
Qed.

(** [execute_tool_call] when it raises: nothing is appended to the
    conversation, no result object came back, and if the call of the tool
    itself raised, that is the exception and the last event. *)
Lemma execute_tool_call_abort (self : Client) (tool_call : ToolCall)
      (st st' : St) (e : Exn) :
  execute_tool_call self tool_call st = (Raised e, st') ->
  no_failed_call (trace st) ->
  messages st' = messages st
  /\ (exists more, final_text st' = final_text st ++ more)
  /\ executed (trace st') = executed (trace st)
  /\ forall t a e',
      In (EvCallTool t a (inl e')) (trace st') ->
      e' = e /\ exists tr, trace st' = tr ++ [EvCallTool t a (inl e')].
Proof.
  unfold execute_tool_call, bind, get_tool_args, the_session, call, lift_exn,
    final_text_append, messages_append, ret, raise.
  intros H Hno.
  destruct (tool_args st) as [a|] eqn:Ha; simpl in H.
  2:{ inversion H; subst. split; [reflexivity|].
      split; [exists []; now rewrite app_nil_r|]. split; [reflexivity|].
      intros t a e' Hin. exfalso. exact (Hno _ _ _ Hin). }
  destruct (session self) as [s|]; simpl in H.
  2:{ inversion H; subst; simpl. split; [reflexivity|].
      split; [eauto|]. split; [reflexivity|].
      intros t a' e' Hin. exfalso. exact (Hno _ _ _ Hin). }
  destruct (call_tool s (name (function tool_call)) a (world st))
    as [[e0|r] w'] eqn:Hcall; simpl in H.
  { inversion H; subst; simpl. split; [reflexivity|].
    split; [eauto|]. split.
    - rewrite executed_app. simpl. now rewrite app_nil_r.
    - intros t a' e' Hin. apply in_app_iff in Hin.
      destruct Hin as [Hin|[Hin|[]]]; [exfalso; exact (Hno _ _ _ Hin)|].
      inversion Hin; subst. split; [reflexivity|eauto]. }
  destruct r as [l|t0|c err|d]; simpl in H; inversion H; subst; simpl;
    (split; [reflexivity|]; split; [eauto|]; split;
     [rewrite executed_app; simpl; now rewrite app_nil_r|];
     intros t a' e' Hin; apply in_app_iff in Hin;
     destruct Hin as [Hin|[Hin|[]]];
     [exfalso; exact (Hno _ _ _ Hin)|discriminate]).
Qed.

(** One iteration, with what the answer and the trace record of it. *)
Lemma resolve_tool_call_account (self : Client) (tool_call : ToolCall)
      (st st' : St) (out : Outcome unit) :
  resolve_tool_call self tool_call st = (out, st') ->
  no_failed_call (trace st) ->
  (exists more, final_text st' = final_text st ++ more)
  /\ (forall r, out = Returned r -> join_lines (final_text st') = inr r)
  /\ (forall t a e,
        In (EvCallTool t a (inl e)) (trace st') ->
        out = Raised e /\ exists tr, trace st' = tr ++ [EvCallTool t a (inl e)])
  /\ ((messages st' = messages st
       /\ executed (trace st') = executed (trace st)
       /\ out <> Normal tt)
      \/ exists x m,
          executed (trace st') = executed (trace st) ++ [x]
          /\ messages st' = messages st ++ [m]
          /\ surfaced (final_text st') (tool_call, x) m).
Proof.
  unfold resolve_tool_call, bind. intros H Hno.
  destruct (parse_tool_args tool_call st) as [o1 st1] eqn:E1.
  apply parse_tool_args_spec in E1.
  destruct E1 as (-> & _ & Hm1 & Hft1 & _ & p & Ht1 & Hp).
  assert (Hno1 : no_failed_call (trace st1)).
  { rewrite Ht1. apply no_failed_call_app;
      [assumption|now apply prints_are_no_calls]. }
  assert (Hx1 : executed (trace st1) = executed (trace st)).
  { rewrite Ht1, executed_app, (executed_prints Hp). now rewrite app_nil_r. }
  destruct (execute_tool_call self tool_call st1) as [o2 st2] eqn:E2.
  destruct o2 as [[]|r2|e2].
  - pose proof (execute_tool_call_spec _ _ _ E2) as [[_ Hex]|[[e Habs] _]];
      [|discriminate].
    destruct Hex as (a & c & err & _ & _ & Hm2 & Hft2 & Ht2).
    destruct (expand_template self st2) as [o3 st3] eqn:E3.
    apply expand_template_spec in E3.
    destruct E3 as (-> & Hm3 & _ & msgs & delta & Hft3 & Ht3 & Hd & _).
    apply final_completion_spec in H. destruct H as (Hm4 & _ & Hf).
    set (text := str_response (RespObj c err)) in *.
    set (n := name (function tool_call)) in *.
    assert (Hno3 : no_failed_call (trace st3)).
    { rewrite Ht3, Ht2. apply no_failed_call_app;
        [|now apply template_events_are_no_calls].
      apply no_failed_call_app; [assumption|].
      constructor; [intros; discriminate|constructor]. }
    assert (Hx3 : executed (trace st3)
                  = executed (trace st) ++ [(n, a, RespObj c err)]).
    { rewrite Ht3, Ht2, !executed_app, (executed_template Hd), Hx1.
      simpl. now rewrite app_nil_r. }
    assert (Hft3' : final_text st3
                    = final_text st
                      ++ ([DStr (announcement n a); DStr text]
                          ++ map DStr (assistant_lines msgs))).
    { rewrite Hft3, Hft2, Hft1. now rewrite <- app_assoc. }
    assert (Hend : exists last d4,
               final_text st' = final_text st3 ++ [last]
               /\ trace st' = trace st3 ++ d4
               /\ Forall (fun ev => forall t a e, ev <> EvCallTool t a (inl e))
                         d4
               /\ executed d4 = []).
    { destruct Hf as [[_ (c' & t & Hft4 & Ht4)]|(e' & (r & Hft4 & Ht4 & _) & _)].
      - do 2 eexists. split; [exact Hft4|]. split; [exact Ht4|].
        split; [repeat constructor; intros; discriminate|reflexivity].
      - do 2 eexists. split; [exact Hft4|]. split; [exact Ht4|].
        split; [repeat constructor; intros; discriminate|].
        now destruct r. }
    destruct Hend as (last & d4 & Hft4 & Ht4 & Hd4 & Hx4).
    split; [|split; [|split]].
    + rewrite Hft4, Hft3', <- app_assoc. eauto.
    + intros r ->.
      destruct Hf as [[Hout _]|(e' & _ & Hout)]; [discriminate|].
      destruct (join_lines (final_text st')); [discriminate|].
      now inversion Hout.
    + intros t a' e Hin. exfalso.
      assert (Hno4 : no_failed_call (trace st'))
        by (rewrite Ht4; now apply no_failed_call_app).
      exact (Hno4 _ _ _ Hin).
    + right. exists (n, a, RespObj c err), (MsgTool (id tool_call) (DStr text)).
      split; [rewrite Ht4, executed_app, Hx4, Hx3; now rewrite app_nil_r|].
      split; [now rewrite Hm4, Hm3, Hm2, Hm1|].
      exists text. simpl. repeat split.
      rewrite Hft4, Hft3'. apply in_app_iff. left.
      apply in_app_iff. right. right. left. reflexivity.
  - exfalso.
    pose proof (execute_tool_call_spec _ _ _ E2) as [[Habs _]|[[e Habs] _]];
      discriminate.
  - inversion H; subst.
    destruct (@execute_tool_call_abort _ _ _ _ _ E2 Hno1)
      as (Hm2 & [more Hft2] & Hx2 & Hlast).
    split; [rewrite Hft2, Hft1; eauto|].
    split; [intros r Hr; discriminate|].
    split.
    + intros t a e Hin. destruct (Hlast _ _ _ Hin) as [-> Htr]. auto.
    + left. split; [congruence|]. split; [congruence|discriminate].
Qed.

(** The loop, with the same account: [done] are the calls whose tool came
    back with a result. *)
Lemma for_each_account (self : Client) (l : list ToolCall) :
  forall (st st' : St) (out : Outcome unit),
    for_each (resolve_tool_call self) l st = (out, st') ->
    no_failed_call (trace st) ->
    exists done xs new more,
      done = firstn (length done) l
      /\ length xs = length done
      /\ executed (trace st') = executed (trace st) ++ xs
      /\ messages st' = messages st ++ new
      /\ final_text st' = final_text st ++ more
      /\ Forall2 (surfaced (final_text st')) (combine done xs) new
      /\ (forall r, out = Returned r -> join_lines (final_text st') = inr r)
      /\ (forall t a e,
            In (EvCallTool t a (inl e)) (trace st') ->
            out = Raised e
            /\ exists tr, trace st' = tr ++ [EvCallTool t a (inl e)]).
Proof.
  induction l as [|tc l IH]; intros st st' out H Hno; simpl in H.
  - inversion H; subst. exists [], [], [], []. simpl.
    rewrite !app_nil_r.
    split; [reflexivity|]. split; [reflexivity|]. split; [reflexivity|].
    split; [reflexivity|]. split; [reflexivity|]. split; [constructor|].
    split; [intros r Hr; discriminate|].
    intros t a e Hin. exfalso. exact (Hno _ _ _ Hin).
  - unfold bind in H.
    destruct (resolve_tool_call self tc st) as [o st1] eqn:E.
    destruct (@resolve_tool_call_account _ _ _ _ _ E Hno)
      as ([more1 Hft1] & Hret & Hfail & Hcase).
    assert (Hstop : o <> Normal tt -> (out, st') = (o, st1)).
    { intros Ho. destruct o as [[]|r|e]; [congruence| |]; now inversion H. }
    destruct Hcase as [(Hm & Hx & Ho)|(x & m & Hx & Hm & Hs)].
    + injection (Hstop Ho) as -> ->.
      exists [], [], [], more1. simpl. rewrite Hx, Hm, !app_nil_r.
      split; [reflexivity|]. split; [reflexivity|]. split; [reflexivity|].
      split; [reflexivity|]. split; [assumption|].
      split; [constructor|]. split; assumption.
    + destruct o as [[]|r|e].
      * assert (Hno1 : no_failed_call (trace st1)).
        { intros t a e Hin. destruct (Hfail _ _ _ Hin) as [Habs _].
          discriminate. }
        destruct (IH _ _ _ H Hno1)
          as (done & xs & new & more & Hd & Hl & Hx' & Hm' & Hft' & Hf
              & Hret' & Hfail').
        exists (tc :: done), (x :: xs), (m :: new), (more1 ++ more). simpl.
        split; [now rewrite <- Hd|]. split; [now rewrite Hl|].
        split; [rewrite Hx', Hx, <- app_assoc; reflexivity|].
        split; [rewrite Hm', Hm, <- app_assoc; reflexivity|].
        split; [rewrite Hft', Hft1, <- app_assoc; reflexivity|].
        split; [|split; assumption].
        constructor; [|assumption].
        rewrite Hft'. now apply surfaced_more.
      * assert (Hne : @Returned unit r <> Normal tt) by discriminate.
        injection (Hstop Hne) as -> ->.
        exists [tc], [x], [m], more1. simpl.
        split; [reflexivity|]. split; [reflexivity|]. split; [assumption|].
        split; [assumption|]. split; [assumption|].
        split; [constructor; [assumption|constructor]|]. split; assumption.
      * assert (Hne : @Raised unit e <> Normal tt) by discriminate.
        injection (Hstop Hne) as -> ->.
        exists [tc], [x], [m], more1. simpl.
        split; [reflexivity|]. split; [reflexivity|]. split; [assumption|].
        split; [assumption|]. split; [assumption|].
        split; [constructor; [assumption|constructor]|]. split; assumption.
Qed.

(** C4, as the code has it.  For a query whose initial completion asks for
    the tool calls [tcs]: the tool calls whose tool came back with a result
    object, also a result that reports an error, are the first of [tcs];
    for each of them, in order, the text that the code makes of its result
    is a fragment of the answer and the content of a tool message with the
    id of the call, and these are all the tool messages; a string that
    [process_query] returns is the join of the fragments.  When the call of
    a tool raises, nothing catches it: it is the last event of the run, its
    exception is what [process_query] raises, and the call has no tool
    message. *)
Theorem tool_failure_surfaced_or_raised (self : Client) (query : string)
        (w w1 w2 : W) (s : Sess) (tools : list Tool) (c : ChatCompletion)
        (msg : ChatMessage) (tcs : list ToolCall) :
  session self = Some s ->
  list_tools s w = (inr tools, w1) ->
  chat_create (initial_request self [MsgSystem SYSTEM_PROMPT; MsgUser query]
                               (map available_tool tools)) w1
  = (inr c, w2) ->
  first_choice c = inr msg ->
  tool_calls msg = Some tcs ->
  exists done new,
    done = firstn (length done) tcs
    /\ length (executed (trace (snd (process_query self query w))))
       = length done
    /\ messages (snd (process_query self query w))
       = [MsgSystem SYSTEM_PROMPT; MsgUser query; MsgAssistant msg] ++ new
    /\ Forall2 (surfaced (final_text (snd (process_query self query w))))
               (combine done
                        (executed (trace (snd (process_query self query w)))))
               new
    /\ (forall r,
          fst (process_query self query w) = inr r ->
          join_lines (final_text (snd (process_query self query w))) = inr r)
    /\ (forall t a e,
          In (EvCallTool t a (inl e))
             (trace (snd (process_query self query w))) ->
          fst (process_query self query w) = inl e
          /\ exists tr,
               trace (snd (process_query self query w))
               = tr ++ [EvCallTool t a (inl e)]).
Proof.
  intros Hs Hl Hc Hm Htcs.
  rewrite (process_query_after_initial self query w Hs Hl Hc Hm).
  unfold branch. rewrite Htcs.
  assert (Hno : no_failed_call
                  (trace (after_initial self query tools c msg w2))).
  { intros t a e [Hin|[Hin|[]]]; discriminate. }
  destruct tcs as [|tc tcs].
  - unfold final_text_append. simpl.
    exists [], []. simpl.
    destruct (join_lines [dyn_of_content (content msg)]) as [e0|r0] eqn:Ej;
      simpl;
      (split; [reflexivity|]; split; [reflexivity|]; split; [reflexivity|];
       split; [constructor|]; split;
       [intros r Hr; congruence
       |intros t a e Hin; exfalso; exact (Hno _ _ _ Hin)]).
  - destruct (for_each (resolve_tool_call self) (tc :: tcs)
                (after_initial self query tools c msg w2)) as [out st] eqn:E.
    destruct (@for_each_account self _ _ _ _ E Hno)
      as (done & xs & new & more & Hd & Hlen & Hx & Hmsg & _ & Hf & Hret
          & Hfail).
    simpl in Hx, Hmsg. subst xs.
    exists done, new.
    destruct out as [[]|r|e]; simpl;
      (split; [exact Hd|]; split; [exact Hlen|]; split; [exact Hmsg|];
       split; [exact Hf|]; split).
    + intros r Hr. exact Hr.
    + intros t a e Hin. destruct (Hfail _ _ _ Hin) as [Habs _]. discriminate.
    + intros r' Hr. inversion Hr; subst. now apply Hret.
    + intros t a e Hin. destruct (Hfail _ _ _ Hin) as [Habs _]. discriminate.
    + intros r Hr. discriminate.
    + intros t a e' Hin. destruct (Hfail _ _ _ Hin) as [Heq Htr].
      inversion Heq; subst. auto.
Qed.

End ToolFailures.

Lemma connect_to_server_registers_session_witness :
  initialize (Collaborators:=offline) true tt = (inl unreachable, tt)
  /\ session (self_after (connect_to_server (C:=offline) fresh "server.py" tt))
     = Some true
  /\ exit_stack (self_after (connect_to_server (C:=offline) fresh
                                               "server.py" tt))
     = [ResSession unit true; ResTransport bool tt]
  /\ raised (connect_to_server (C:=offline) fresh "server.py" tt)
     = Some unreachable.
Proof.
  split; [reflexivity|].
  exact (@connect_to_server_registers_session _ _ _ offline fresh "server.py"
           tt tt tt tt true (or_introl eq_refl) eq_refl eq_refl).
Defined.

Lemma tool_failure_surfaced_or_raised_witness :
  exists done new,
    done = firstn (length done) both
    /\ length (executed (trace (snd (process_query client "q"
                                                    error_then_raise))))
       = length done
    /\ messages (snd (process_query client "q" error_then_raise))
       = [MsgSystem SYSTEM_PROMPT; MsgUser "q";
          MsgAssistant (mkChatMessage None (Some both))] ++ new
    /\ Forall2 (surfaced (final_text (snd (process_query client "q"
                                                         error_then_raise))))
               (combine done
                        (executed (trace (snd (process_query client "q"
                                                             error_then_raise)))))
               new
    /\ (forall r,
          fst (process_query client "q" error_then_raise) = inr r ->
          join_lines (final_text (snd (process_query client "q"
                                                     error_then_raise)))
          = inr r)
    /\ (forall t a e,
          In (EvCallTool t a (inl e))
             (trace (snd (process_query client "q" error_then_raise))) ->
          fst (process_query client "q" error_then_raise) = inl e
          /\ exists tr,
               trace (snd (process_query client "q" error_then_raise))
               = tr ++ [EvCallTool t a (inl e)]).
Proof.
  refine (@tool_failure_surfaced_or_raised _ _ _ scripted client "q"
            error_then_raise error_then_raise
            (mkScript [workers_tool; worker_tool] [says "one"]
                      [inr failed; inl unreachable] [] None)
            tt [workers_tool; worker_tool]
            (mkChatCompletion [mkChatMessage None (Some both)])
            (mkChatMessage None (Some both)) both _ _ _ _ _);
    vm_compute; reflexivity.
Defined.

(** The scripted run behind it: the first tool reports an error, which is
    surfaced; the call of the second raises, which ends the query. *)
Example error_then_raise_run :
  fst (run error_then_raise) = inl unreachable
  /\ tool_call_ids (messages (snd (run error_then_raise))) = ["call_1"]
  /\ map kind (trace (snd (run error_then_raise)))
     = [KListTools; KInitialCompletion; KCallTool "get_workers_tool";
        KCompletionWithoutTools; KCallTool "get_worker_details_tool"].
Proof. repeat split; vm_compute; reflexivity. Qed.
